(** * next-csrf: the setup and validation middleware, embedded and verified

    The development follows the layout of the package:

    - [src/utils/httpError.ts]    : [HttpError]
    - [src/utils/get-cookie.ts]   : [getCookie] (and the 0.2.4 variant)
    - [src/utils/get-secret.ts]   : [getSecret]
    - [src/middleware/setup.ts]   : [setup]
    - [src/middleware/csrf.ts]    : [csrf]
    - [src/index.ts]              : [cookieDefaultOptions], [defaultOptions],
                                    [nextCsrf]

    The three npm packages the middleware imports ([cookie],
    [cookie-signature], [csrf]) are interfaces here (type classes); every
    general theorem holds for all their implementations.  Module [Doubles]
    gives small executable implementations, in the way the test suite
    mocks request and response, to run the middleware on concrete
    requests.

    [setup] and [csrf] are first given on arguments [cookie.serialize]
    accepts; module [Strict] has them with the argument check of
    [cookie.serialize] and the [TypeError] it throws, and the theorems on
    the two [Set-Cookie] writes are stated there. *)

From Stdlib Require Import ZArith Ascii String.
From stdpp Require Import base option list strings gmap.

Local Open Scope string_scope.
Local Open Scope Z_scope.

(** ** JavaScript values *)

(** [!v] for a value of type [string | null | undefined | false]: the empty
    string and the absent value are the falsy ones. *)
Definition falsy (v : option string) : bool :=
  match v with
  | Some EmptyString => true
  | Some (String _ _) => false
  | None => true
  end.

(** [String.prototype.toLowerCase] on the ASCII range (bytes above 127 are
    left as they are). *)
Definition lower_ascii (c : ascii) : ascii :=
  let n := N_of_ascii c in
  if (65 <=? n)%N && (n <=? 90)%N then ascii_of_N (n + 32) else c.

Fixpoint toLowerCase (s : string) : string :=
  match s with
  | EmptyString => EmptyString
  | String c r => String (lower_ascii c) (toLowerCase r)
  end.

(** What a [catch] clause of the package reads from a thrown value: its
    [status] and [message] properties, either of which may be undefined
    (a plain [Error] has no [status]).  The thrown value itself is taken to
    be an object, as the cast [error as HttpError] has it. *)
Record JsError := {
  status : option Z;
  message : option string;
}.

(** [new Error(message)] *)
Definition Error (msg : string) : JsError :=
  {| status := None; message := Some msg |}.

(** [src/utils/httpError.ts]:
    [constructor(status: number = 403, message: string)].  An undefined
    first argument takes the default. *)
Definition HttpError (st : option Z) (msg : string) : JsError :=
  {| status := Some (default 403 st); message := Some msg |}.

(** ** Requests, responses and the world *)

Record IncomingHttpHeaders := {
  cookie : option string;            (* [req.headers.cookie] *)
}.

(** [method] is [None] when [typeof req.method !== 'string']. *)
Record NextApiRequest := {
  method : option string;
  headers : IncomingHttpHeaders;
}.

(** A header value is a string or an array of strings. *)
Inductive HeaderValue :=
| Single (v : string)
| Multi (vs : list string).

(** The object handed to [res.json]. *)
Record JsonBody := {
  body_message : option string;
}.

(** The response is observed as the test suite observes it: the sequence of
    calls made on it. *)
Inductive ResCall :=
| SetHeader (name : string) (value : HeaderValue)
| Status (code : Z)
| Json (body : JsonBody).

(** The world a request runs in: the response under construction, and the
    environment [Env] (the random source of the token library and whatever
    the handler keeps). *)
Record World (Env : Type) := mkWorld {
  res : list ResCall;
  env : Env;
}.
Arguments mkWorld {Env} _ _.
Arguments res {Env} _.
Arguments env {Env} _.

(** ** Computations: state and exceptions

    An [async] function awaited at once is sequential code that either
    completes or throws (a rejected promise, awaited, throws); effects made
    before a throw stay. *)

Inductive Completion (A : Type) :=
| Normal (a : A)
| Throw (e : JsError).
Arguments Normal {A} _.
Arguments Throw {A} _.

Definition M (Env A : Type) : Type := World Env -> Completion A * World Env.

Section Monad.
Context {Env : Type}.

Definition ret {A} (a : A) : M Env A := fun w => (Normal a, w).

Definition bind {A B} (m : M Env A) (k : A -> M Env B) : M Env B :=
  fun w =>
    match m w with
    | (Normal a, w') => k a w'
    | (Throw e, w') => (Throw e, w')
    end.

Definition throw {A} (e : JsError) : M Env A := fun w => (Throw e, w).

(** [try { body } catch (error) { handler(error) }] *)
Definition try_catch {A} (body : M Env A) (handler : JsError -> M Env A)
  : M Env A :=
  fun w =>
    match body w with
    | (Normal a, w') => (Normal a, w')
    | (Throw e, w') => handler e w'
    end.

(** A call on the response object. *)
Definition call (c : ResCall) : M Env unit :=
  fun w => (Normal tt, mkWorld (res w ++ [c]) (env w)).

(** An effect on the environment alone. *)
Definition liftEnv {A} (f : Env -> A * Env) : M Env A :=
  fun w => let '(a, e') := f (env w) in (Normal a, mkWorld (res w) e').
End Monad.

Declare Scope js_scope.
Delimit Scope js_scope with js.
Notation "x <- m ;; k" := (bind m (fun x => k))
  (at level 100, m at next level, right associativity) : js_scope.
Notation "m ;; k" := (bind m (fun _ => k))
  (at level 100, right associativity) : js_scope.
Local Open Scope js_scope.

(** [if (!v) throw e], after which [v] is a non-empty string. *)
Definition require {Env} (v : option string) (e : JsError) : M Env string :=
  match v with
  | Some (String c r) => ret (String c r)
  | _ => throw e
  end.

(** [v || m] for a string [v]: [m] runs only when [v] is falsy. *)
Definition or_else {Env} (v : option string) (m : M Env string) : M Env string :=
  match v with
  | Some (String c r) => ret (String c r)
  | _ => m
  end.

(** [NextApiHandler], applied to the request; the response is in the world. *)
Definition NextApiHandler (Env : Type) : Type := NextApiRequest -> M Env unit.

(** ** Configuration ([src/types.ts]) *)

(** [sameSite?: boolean | 'lax' | 'strict' | 'none'] *)
Inductive SameSite :=
| SameSiteBool (b : bool)
| SameSiteLax
| SameSiteStrict
| SameSiteNone.

(** [CookieSerializeOptions] of the [cookie] package; every attribute is
    optional. *)
Record CookieSerializeOptions := {
  domain : option string;
  httpOnly : option bool;
  maxAge : option Z;
  path : option string;
  sameSite : option SameSite;
  secure : option bool;
}.

(** [NextCsrfOptions]: what the caller of [nextCsrf] may supply. *)
Record NextCsrfOptions := {
  opt_ignoredMethods : option (list string);
  opt_csrfErrorMessage : option string;
  opt_tokenKey : option string;
  opt_cookieOptions : option CookieSerializeOptions;
  opt_secret : option string;
}.

(** [nextCsrf()] is [nextCsrf({})]. *)
Definition noOptions : NextCsrfOptions :=
  {| opt_ignoredMethods := None; opt_csrfErrorMessage := None;
     opt_tokenKey := None; opt_cookieOptions := None; opt_secret := None |}.

(** [Required<Omit<NextCsrfOptions, 'secret'>>] *)
Record RequiredOptions := {
  ignoredMethods : list string;
  csrfErrorMessage : string;
  tokenKey : string;
  cookieOptions : CookieSerializeOptions;
}.

(** [MiddlewareArgs] *)
Record MiddlewareArgs := {
  mw_required :> RequiredOptions;
  secret : option string;
}.

(** [SetupMiddlewareArgs] *)
Record SetupMiddlewareArgs := {
  su_tokenKey : string;
  su_cookieOptions : CookieSerializeOptions;
  su_secret : option string;
}.

(** ** The imported packages, as interfaces *)

(** [import { parse, serialize } from 'cookie'].  [parse] yields the object
    whose own properties are the cookies of the header; names are
    case-sensitive.  [serialize] is taken on names and values it accepts. *)
Class Cookie := {
  parse : string -> gmap string string;
  serialize : string -> string -> CookieSerializeOptions -> string;
}.

(** [import { sign, unsign } from 'cookie-signature'].  [unsign] yields
    [false] ([None]) on a bad signature. *)
Class CookieSignature := {
  sign : string -> string -> string;
  unsign : string -> string -> option string;
}.

(** [import Tokens from 'csrf'], the instance [createToken].  [secretSync]
    and [create] draw from the random source in the environment. *)
Class Tokens (Env : Type) := {
  secretSync : Env -> string * Env;
  create : string -> Env -> string * Env;
  verify : string -> string -> bool;
}.

(** ** The package *)

Section Package.
Context {Env : Type} `{!Cookie, !CookieSignature, !Tokens Env}.

(** *** [src/utils/get-cookie.ts] *)

(** Version 0.2.5: [null] for a cookie that is not there. *)
Definition getCookie (req : NextApiRequest) (name : string) : option string :=
  match cookie (headers req) with
  | Some c => parse c !! name
  | None => None
  end.

(** Version 0.2.4: [parsedCookie[name] || ''], and [''] without a header. *)
Definition getCookie_0_2_4 (req : NextApiRequest) (name : string) : string :=
  match cookie (headers req) with
  | Some c => default "" (parse c !! name)
  | None => ""
  end.

(** *** [src/utils/get-secret.ts] *)

Definition getSecret (req : NextApiRequest) (tokenKey : string) : option string :=
  getCookie req (toLowerCase tokenKey).

(** *** [src/middleware/setup.ts] *)

Record GetServerSidePropsContext := {
  ctx_req : NextApiRequest;
}.

(** [[NextApiRequest, NextApiResponse] | [GetServerSidePropsContext]]; the
    response of either shape is the one in the world. *)
Inductive SetupArgs :=
| ApiArgs (req : NextApiRequest)
| ContextArgs (ctx : GetServerSidePropsContext).

(** [isApi ? args[0] : args[0].req], where [isApi] is [args.length > 1]:
    the first shape has two arguments, the second one. *)
Definition setup_req (args : SetupArgs) : NextApiRequest :=
  match args with
  | ApiArgs req => req
  | ContextArgs ctx => ctx_req ctx
  end.

(** [secret != null ? sign(token, secret) : token] *)
Definition maybe_sign (secret : option string) (unsignedToken : string) : string :=
  match secret with
  | Some k => sign unsignedToken k
  | None => unsignedToken
  end.

(** [getSecret(req, 'csrfSecret') || createToken.secretSync()] *)
Definition setup_secret (req : NextApiRequest) : M Env string :=
  or_else (getSecret req "csrfSecret") (liftEnv secretSync).

Definition setup (handler : NextApiHandler Env) (a : SetupMiddlewareArgs)
  (args : SetupArgs) : M Env unit :=
  let req := setup_req args in
  csrfSecret <- setup_secret req ;;
  unsignedToken <- liftEnv (create csrfSecret) ;;
  let token := maybe_sign (su_secret a) unsignedToken in
  call (SetHeader "Set-Cookie"
          (Multi [serialize "csrfSecret" csrfSecret (su_cookieOptions a);
                  serialize (su_tokenKey a) token (su_cookieOptions a)])) ;;
  handler req.

(** [getSecret] and the secret choice of [setup] over version 0.2.4 of
    [getCookie], whose result is always a string. *)
Definition getSecret_0_2_4 (req : NextApiRequest) (tokenKey : string) : string :=
  getCookie_0_2_4 req (toLowerCase tokenKey).

Definition setup_secret_0_2_4 (req : NextApiRequest) : M Env string :=
  or_else (Some (getSecret_0_2_4 req "csrfSecret")) (liftEnv secretSync).

(** *** [src/middleware/csrf.ts] *)

(** The body of the [try] block. *)
Definition csrf_try (handler : NextApiHandler Env) (a : MiddlewareArgs)
  (req : NextApiRequest) : M Env unit :=
  let reject := HttpError (Some 403) (csrfErrorMessage a) in
  match method req with
  | None => throw reject
  | Some m =>
      if bool_decide (m ∈ ignoredMethods a) then handler req
      else
        match cookie (headers req) with
        | None => throw reject
        | Some c =>
            let jar := parse c in
            token <- require (jar !! tokenKey a) reject ;;
            csrfSecret <- require (jar !! "csrfSecret"%string) reject ;;
            token <- match secret a with
                     | Some k => require (unsign token k) reject
                     | None => ret token
                     end ;;
            if negb (verify csrfSecret token) then throw reject
            else
              fresh <- liftEnv (create csrfSecret) ;;
              let newToken := maybe_sign (secret a) fresh in
              call (SetHeader "Set-Cookie"
                      (Single (serialize (tokenKey a) newToken (cookieOptions a)))) ;;
              handler req
        end
  end.

(** The [catch] clause:
    [res.status(httpError.status ?? 500).json({ message: httpError.message })] *)
Definition csrf_catch (error : JsError) : M Env unit :=
  call (Status (default 500 (status error))) ;;
  call (Json {| body_message := message error |}).

Definition csrf (handler : NextApiHandler Env) (a : MiddlewareArgs)
  (req : NextApiRequest) : M Env unit :=
  try_catch (csrf_try handler a req) csrf_catch.

(** *** [src/index.ts] *)

(** [NODE_ENV] is [process.env.NODE_ENV]. *)
Definition cookieDefaultOptions (NODE_ENV : option string) : CookieSerializeOptions :=
  {| domain := None;
     httpOnly := Some true;
     maxAge := None;
     path := Some "/";
     sameSite := Some SameSiteLax;
     secure := Some (bool_decide (NODE_ENV = Some "production")) |}.

Definition defaultOptions (NODE_ENV : option string) : RequiredOptions :=
  {| tokenKey := "XSRF-TOKEN";
     csrfErrorMessage := "Invalid CSRF token";
     ignoredMethods := ["GET"; "HEAD"; "OPTIONS"];
     cookieOptions := cookieDefaultOptions NODE_ENV |}.

(** [{ ...defaultOptions, ...userOptions }]: a property the caller has
    supplied replaces the default of the same name, whole.  [None] is a
    property that [userOptions] does not have. *)
Definition spread (d : RequiredOptions) (u : NextCsrfOptions) : RequiredOptions :=
  {| tokenKey := default (tokenKey d) (opt_tokenKey u);
     csrfErrorMessage := default (csrfErrorMessage d) (opt_csrfErrorMessage u);
     ignoredMethods := default (ignoredMethods d) (opt_ignoredMethods u);
     cookieOptions := default (cookieOptions d) (opt_cookieOptions u) |}.

(** [NextCSRF]; [setup] takes the arguments of either calling shape. *)
Record NextCSRF := {
  nc_setup : NextApiHandler Env -> SetupArgs -> M Env unit;
  nc_csrf : NextApiHandler Env -> NextApiRequest -> M Env unit;
}.

Definition nextCsrf (NODE_ENV : option string) (userOptions : NextCsrfOptions)
  : NextCSRF :=
  let options := spread (defaultOptions NODE_ENV) userOptions in
  {| nc_setup := fun handler =>
       setup handler
         {| su_tokenKey := tokenKey options;
            su_cookieOptions := cookieOptions options;
            su_secret := opt_secret userOptions |};
     nc_csrf := fun handler =>
       csrf handler
         {| mw_required :=
              {| tokenKey := tokenKey options;
                 csrfErrorMessage := csrfErrorMessage options;
                 ignoredMethods := ignoredMethods options;
                 cookieOptions := cookieOptions options |};
            secret := opt_secret userOptions |} |}.
End Package.

(** ** Executable doubles of the imported packages

    Enough of each package to run the middleware on concrete requests: a
    cookie parser for [name=value; name=value] headers (first occurrence
    of a name wins), a serializer that writes [name=value] and the [Path]
    attribute, a signature that appends [.key], and a token library whose
    random source is a tape of strings. *)

Module Doubles.

(** [s.indexOf(c)] *)
Fixpoint index_of (c : ascii) (s : string) : option nat :=
  match s with
  | EmptyString => None
  | String d r =>
      if Ascii.eqb c d then Some O else S <$> index_of c r
  end.

(** [s.split(c)] *)
Fixpoint split_on (c : ascii) (s : string) : list string :=
  match s with
  | EmptyString => [EmptyString]
  | String d r =>
      if Ascii.eqb c d then EmptyString :: split_on c r
      else match split_on c r with
           | p :: ps => String d p :: ps
           | [] => [String d EmptyString]
           end
  end.

Fixpoint trim_left (s : string) : string :=
  match s with
  | String " " r => trim_left r
  | _ => s
  end.

Definition parse_pair (p : string) : option (string * string) :=
  match index_of "=" p with
  | Some i =>
      Some (String.substring 0 i p,
            String.substring (S i) (String.length p) p)
  | None => None
  end.

Definition parse_header (s : string) : gmap string string :=
  foldr (fun p jar =>
           match parse_pair (trim_left p) with
           | Some (k, v) => <[k := v]> jar
           | None => jar
           end) ∅ (split_on ";" s).

Definition serialize_pair (name value : string) (o : CookieSerializeOptions)
  : string :=
  name +:+ "=" +:+ value +:+
  match path o with Some p => "; Path=" +:+ p | None => "" end.

#[export] Instance cookie_double : Cookie :=
  {| parse := parse_header; serialize := serialize_pair |}.

Definition sign_dot (val key : string) : string := val +:+ "." +:+ key.

Definition unsign_dot (input key : string) : option string :=
  let n := (String.length input - String.length ("." +:+ key))%nat in
  let tentative := String.substring 0 n input in
  if String.eqb (sign_dot tentative key) input then Some tentative else None.

#[export] Instance signature_double : CookieSignature :=
  {| sign := sign_dot; unsign := unsign_dot |}.

(** The random source: the strings still to be drawn. *)
Definition Tape : Type := list string.

Definition draw (t : Tape) : string * Tape :=
  match t with
  | x :: r => (x, r)
  | [] => ("0", [])
  end.

(** A token is [salt-secret]; the real library hashes the second part. *)
Definition create_tape (secret : string) (t : Tape) : string * Tape :=
  let '(salt, r) := draw t in (salt +:+ "-" +:+ secret, r).

Definition verify_tape (secret token : string) : bool :=
  match index_of "-" token with
  | Some i =>
      String.eqb (String.substring (S i) (String.length token) token) secret
  | None => false
  end.

#[export] Instance tokens_double : Tokens Tape :=
  {| secretSync := draw; create := create_tape; verify := verify_tape |}.

Definition request (m : option string) (c : option string) : NextApiRequest :=
  {| method := m; headers := {| cookie := c |} |}.

(** A handler that answers [200 {message: "ok"}]. *)
Definition okHandler : NextApiHandler Tape :=
  fun _ => call (Status 200) ;; call (Json {| body_message := Some "ok" |}).

(** A handler that throws [new Error("boom")]. *)
Definition failingHandler : NextApiHandler Tape :=
  fun _ => throw (Error "boom").

(** A fresh response and a tape of three draws. *)
Definition world0 : World Tape := mkWorld [] ["r1"; "r2"; "r3"].

(** The arguments [nextCsrf()] hands to [csrf], and the same with the
    signing key ["k"]. *)
Definition defaultArgs : MiddlewareArgs :=
  {| mw_required := defaultOptions None; secret := None |}.

Definition signedArgs : MiddlewareArgs :=
  {| mw_required := defaultOptions None; secret := Some "k" |}.

(** A secret cookie and a token cookie that verifies against it; the same
    with the token signed by ["k"]; and a token of another secret. *)
Definition goodCookies : string := "csrfSecret=abc; XSRF-TOKEN=r9-abc".
Definition signedCookies : string := "csrfSecret=abc; XSRF-TOKEN=r9-abc.k".
Definition staleCookies : string := "csrfSecret=abc; XSRF-TOKEN=r9-xyz".

Definition getRequest : NextApiRequest := request (Some "GET") None.
Definition postRequest (c : option string) : NextApiRequest :=
  request (Some "POST") c.

(** [nextCsrf({ cookieOptions: { secure: true } })] *)
Definition secureOnly : NextCsrfOptions :=
  {| opt_ignoredMethods := None; opt_csrfErrorMessage := None;
     opt_tokenKey := None;
     opt_cookieOptions :=
       Some {| domain := None; httpOnly := None; maxAge := None;
               path := None; sameSite := None; secure := Some true |};
     opt_secret := None |}.

(** [setup] as [nextCsrf()] configures it. *)
Definition defaultSetupArgs : SetupMiddlewareArgs :=
  {| su_tokenKey := "XSRF-TOKEN";
     su_cookieOptions := cookieDefaultOptions None;
     su_secret := None |}.

End Doubles.

(** ** What the middleware decides, in terms of the request

    The predicates below name the situations the validation stage
    distinguishes.  They are read off the conditions of [csrf_try]; the
    lemmas after them show that each one drives the code down the branch
    it names, and that together they cover every request. *)

Section Situations.
Context {Env : Type} `{!Cookie, !CookieSignature, !Tokens Env}.

(** The token that is verified: the cookie value, unsigned when a signing
    key is configured. *)
Definition working_token (a : MiddlewareArgs) (token : string) : option string :=
  match secret a with
  | Some k => unsign token k
  | None => Some token
  end.

(** The signature step of [csrf_try], by itself. *)
Definition unsign_step (a : MiddlewareArgs) (token : string) : M Env string :=
  match secret a with
  | Some k => require (unsign token k) (HttpError (Some 403) (csrfErrorMessage a))
  | None => ret token
  end.

(** The failures after the method check, on the cookie header. *)
Inductive CookieFailure (a : MiddlewareArgs) : option string -> Prop :=
| CookieHeaderMissing :
    CookieFailure a None
| TokenCookieMissing c :
    falsy (parse c !! tokenKey a) = true ->
    CookieFailure a (Some c)
| SecretCookieMissing c :
    falsy (parse c !! "csrfSecret"%string) = true ->
    CookieFailure a (Some c)
| SignatureInvalid c token :
    parse c !! tokenKey a = Some token ->
    falsy (working_token a token) = true ->
    CookieFailure a (Some c)
| TokenSecretMismatch c token csrfSecret working :
    parse c !! tokenKey a = Some token ->
    parse c !! "csrfSecret"%string = Some csrfSecret ->
    working_token a token = Some working ->
    verify csrfSecret working = false ->
    CookieFailure a (Some c).

(** The six kinds of validation failure. *)
Inductive ValidationFailure (a : MiddlewareArgs) (req : NextApiRequest) : Prop :=
| MethodUnreadable :
    method req = None ->
    ValidationFailure a req
| ProtectedFailure m :
    method req = Some m ->
    m ∉ ignoredMethods a ->
    CookieFailure a (cookie (headers req)) ->
    ValidationFailure a req.

(** The request is subject to protection and passes every check, with
    [csrfSecret] the value of the secret cookie. *)
Inductive Verifies (a : MiddlewareArgs) (req : NextApiRequest)
  (csrfSecret : string) : Prop :=
| Verifies_intro m c token working :
    method req = Some m ->
    m ∉ ignoredMethods a ->
    cookie (headers req) = Some c ->
    parse c !! tokenKey a = Some token ->
    falsy (Some token) = false ->
    parse c !! "csrfSecret"%string = Some csrfSecret ->
    falsy (Some csrfSecret) = false ->
    working_token a token = Some working ->
    falsy (Some working) = false ->
    verify csrfSecret working = true ->
    Verifies a req csrfSecret.

(** The world after the [ROTATE] step: one token drawn for [csrfSecret],
    one [Set-Cookie] write. *)
Definition rotate (a : MiddlewareArgs) (csrfSecret : string) (w : World Env)
  : World Env :=
  let '(fresh, e') := create csrfSecret (env w) in
  mkWorld
    (res w ++ [SetHeader "Set-Cookie"
                 (Single (serialize (tokenKey a)
                            (maybe_sign (secret a) fresh) (cookieOptions a)))])
    e'.

(** The wrapped handler is reached, in world [w1]: at once for an exempt
    method, after rotation for a verified request. *)
Inductive Delegates (a : MiddlewareArgs) (req : NextApiRequest)
  (w : World Env) : World Env -> Prop :=
| Delegates_exempt m :
    method req = Some m ->
    m ∈ ignoredMethods a ->
    Delegates a req w w
| Delegates_verified csrfSecret :
    Verifies a req csrfSecret ->
    Delegates a req w (rotate a csrfSecret w).

(** The world after the [catch] clause has answered for [error]. *)
Definition respond (error : JsError) (w : World Env) : World Env :=
  mkWorld
    (res w ++ [Status (default 500 (status error));
               Json {| body_message := message error |}])
    (env w).

(** The calls on the response that write a [Set-Cookie] header. *)
Definition is_set_cookie (c : ResCall) : bool :=
  match c with
  | SetHeader name _ => String.eqb name "Set-Cookie"
  | _ => false
  end.

(** The calls made on the response between [w] and [w']. *)
Definition calls_since (w w' : World Env) : list ResCall :=
  drop (length (res w)) (res w').
End Situations.

(** ** What the middleware reads, and the arguments it runs with *)

Section Observations.
Context {Env : Type} `{!Cookie, !CookieSignature, !Tokens Env}.

(** The two properties [csrf] reads off the parsed cookie header:
    [cookie[tokenKey]] and [cookie['csrfSecret']]; [None] without a header. *)
Definition cookies_read (a : MiddlewareArgs) (req : NextApiRequest)
  : option (option string * option string) :=
  match cookie (headers req) with
  | Some c => Some (parse c !! tokenKey a, parse c !! "csrfSecret"%string)
  | None => None
  end.

(** The arguments [nextCsrf] hands to [csrf]: the merged options and the
    signing key of the caller. *)
Definition effective (NODE_ENV : option string) (u : NextCsrfOptions)
  : MiddlewareArgs :=
  {| mw_required := spread (defaultOptions NODE_ENV) u;
     secret := opt_secret u |}.

(** The world in which [setup] calls the handler, having written the secret
    [s] and the token cookie value [sent]. *)
Definition after_setup (a : SetupMiddlewareArgs) (s sent : string)
  (w : World Env) (e : Env) : World Env :=
  mkWorld
    (res w ++ [SetHeader "Set-Cookie"
                 (Multi [serialize "csrfSecret" s (su_cookieOptions a);
                         serialize (su_tokenKey a) sent (su_cookieOptions a)])])
    e.
End Observations.

(** Further options and requests for concrete runs. *)
Module Fixtures.

(** [nextCsrf({ secret: "k" })] *)
Definition keyOptions : NextCsrfOptions :=
  {| opt_ignoredMethods := None; opt_csrfErrorMessage := None;
     opt_tokenKey := None; opt_cookieOptions := None;
     opt_secret := Some "k"%string |}.

(** [nextCsrf({ csrfErrorMessage: "Custom CSRF error" })] *)
Definition messageOptions : NextCsrfOptions :=
  {| opt_ignoredMethods := None;
     opt_csrfErrorMessage := Some "Custom CSRF error"%string;
     opt_tokenKey := None; opt_cookieOptions := None; opt_secret := None |}.

(** [ignoredMethods: []] *)
Definition noExemptArgs : MiddlewareArgs :=
  {| mw_required :=
       {| ignoredMethods := []; csrfErrorMessage := "Invalid CSRF token"%string;
          tokenKey := "XSRF-TOKEN"%string;
          cookieOptions := cookieDefaultOptions None |};
     secret := None |}.

(** [tokenKey: "csrfSecret"] *)
Definition collapsedArgs : MiddlewareArgs :=
  {| mw_required :=
       {| ignoredMethods := ["GET"; "HEAD"; "OPTIONS"]%string;
          csrfErrorMessage := "Invalid CSRF token"%string;
          tokenKey := "csrfSecret"%string;
          cookieOptions := cookieDefaultOptions None |};
     secret := None |}.

Definition mkRequest (m : option string) (c : option string) : NextApiRequest :=
  {| method := m; headers := {| cookie := c |} |}.

End Fixtures.

(** ** [cookie.serialize] and the arguments it does not accept

    [serialize] of class [Cookie] is the directive [cookie.serialize]
    returns.  Before it returns one, the package checks the name, the
    encoded value and the attributes, and throws a [TypeError] on the first
    it does not accept; [serialize_error] is that check.  [setup] and
    [csrf] above are the middleware on arguments the check lets through;
    module [Strict] has the two with the check in place, and they are the
    same wherever it passes (lemmas [strict_setup_accepted],
    [strict_csrf_accepted]). *)

Class CookieCheck := {
  serialize_error : string -> string -> CookieSerializeOptions -> option JsError;
}.

(** [new TypeError(message)]: an error without [status]. *)
Definition TypeError (msg : string) : JsError :=
  {| status := None; message := Some msg |}.

Module Strict.
Section Package.
Context {Env : Type} `{!Cookie, !CookieCheck, !CookieSignature, !Tokens Env}.

(** [serialize(name, val, options)]: the check, then the directive. *)
Definition serialize_call (name val : string) (o : CookieSerializeOptions)
  : M Env string :=
  match serialize_error name val o with
  | Some e => throw e
  | None => ret (serialize name val o)
  end.

(** [src/middleware/setup.ts]: the elements of the array are evaluated,
    left to right, before [res.setHeader] is called. *)
Definition setup (handler : NextApiHandler Env) (a : SetupMiddlewareArgs)
  (args : SetupArgs) : M Env unit :=
  let req := setup_req args in
  csrfSecret <- setup_secret req ;;
  unsignedToken <- liftEnv (create csrfSecret) ;;
  let token := maybe_sign (su_secret a) unsignedToken in
  secretCookie <- serialize_call "csrfSecret" csrfSecret (su_cookieOptions a) ;;
  tokenCookie <- serialize_call (su_tokenKey a) token (su_cookieOptions a) ;;
  call (SetHeader "Set-Cookie" (Multi [secretCookie; tokenCookie])) ;;
  handler req.

(** [src/middleware/csrf.ts], the body of the [try] block. *)
Definition csrf_try (handler : NextApiHandler Env) (a : MiddlewareArgs)
  (req : NextApiRequest) : M Env unit :=
  let reject := HttpError (Some 403) (csrfErrorMessage a) in
  match method req with
  | None => throw reject
  | Some m =>
      if bool_decide (m ∈ ignoredMethods a) then handler req
      else
        match cookie (headers req) with
        | None => throw reject
        | Some c =>
            let jar := parse c in
            token <- require (jar !! tokenKey a) reject ;;
            csrfSecret <- require (jar !! "csrfSecret"%string) reject ;;
            token <- match secret a with
                     | Some k => require (unsign token k) reject
                     | None => ret token
                     end ;;
            if negb (verify csrfSecret token) then throw reject
            else
              fresh <- liftEnv (create csrfSecret) ;;
              let newToken := maybe_sign (secret a) fresh in
              tokenCookie <- serialize_call (tokenKey a) newToken (cookieOptions a) ;;
              call (SetHeader "Set-Cookie" (Single tokenCookie)) ;;
              handler req
        end
  end.

Definition csrf (handler : NextApiHandler Env) (a : MiddlewareArgs)
  (req : NextApiRequest) : M Env unit :=
  try_catch (csrf_try handler a req) csrf_catch.
End Package.
End Strict.

(** ** The checks of [csrf], with what follows them left open *)

Section Checks.
Context {Env : Type} `{!Cookie, !CookieSignature, !Tokens Env}.

(** The checks of the [try] block up to [verify]: [exempt] is what runs for
    an exempt method, [verified] what runs, on the secret, once the token
    has verified.  [csrf_try] and [Strict.csrf_try] are both of this
    form. *)
Definition csrf_checks (a : MiddlewareArgs) (req : NextApiRequest)
  (exempt : M Env unit) (verified : string -> M Env unit) : M Env unit :=
  let reject := HttpError (Some 403) (csrfErrorMessage a) in
  match method req with
  | None => throw reject
  | Some m =>
      if bool_decide (m ∈ ignoredMethods a) then exempt
      else
        match cookie (headers req) with
        | None => throw reject
        | Some c =>
            let jar := parse c in
            token <- require (jar !! tokenKey a) reject ;;
            csrfSecret <- require (jar !! "csrfSecret"%string) reject ;;
            token <- unsign_step a token ;;
            if negb (verify csrfSecret token) then throw reject
            else verified csrfSecret
        end
  end.

(** The world after the token has been drawn for [csrfSecret] and nothing
    has been written. *)
Definition drawn (csrfSecret : string) (w : World Env) : World Env :=
  mkWorld (res w) (snd (create csrfSecret (env w))).

(** The value the token cookie gets on rotation, in world [w]. *)
Definition rotated_token (a : MiddlewareArgs) (csrfSecret : string)
  (w : World Env) : string :=
  maybe_sign (secret a) (fst (create csrfSecret (env w))).
End Checks.


(** A double of the check: a cookie name is refused when it is empty or
    has a space in it. *)
Module StrictDoubles.

Fixpoint has_space (s : string) : bool :=
  match s with
  | EmptyString => false
  | String c r => Ascii.eqb c " " || has_space r
  end.

Definition refuse_name (name val : string) (o : CookieSerializeOptions)
  : option JsError :=
  match name with
  | EmptyString => Some (TypeError "argument name is invalid")
  | _ => if has_space name then Some (TypeError "argument name is invalid")
         else None
  end.

#[export] Instance check_double : CookieCheck :=
  {| serialize_error := refuse_name |}.

(** [tokenKey: "XSRF TOKEN"] *)
Definition spacedArgs : MiddlewareArgs :=
  {| mw_required :=
       {| ignoredMethods := ["GET"; "HEAD"; "OPTIONS"]%string;
          csrfErrorMessage := "Invalid CSRF token"%string;
          tokenKey := "XSRF TOKEN"%string;
          cookieOptions := cookieDefaultOptions None |};
     secret := None |}.

Definition spacedSetupArgs : SetupMiddlewareArgs :=
  {| su_tokenKey := "XSRF TOKEN"%string;
     su_cookieOptions := cookieDefaultOptions None;
     su_secret := None |}.

(** A secret and a token that verifies, the token under the spaced name. *)
Definition spacedCookies : string := "csrfSecret=abc; XSRF TOKEN=r9-abc".

End StrictDoubles.

(** [m ∉ [m1; ...; mn]] for literal strings. *)
Ltac not_listed :=
  let H := fresh "Hin" in
  intros H;
  repeat (apply elem_of_cons in H as [H | H]; [discriminate H | ]);
  exact (proj1 (elem_of_nil _) H).

(** [Verifies] on a literal request: each check is evaluated. *)
Ltac verifies_with m c token working :=
  apply (Verifies_intro _ _ _ m c token working);
  [ reflexivity | not_listed | reflexivity | vm_compute; reflexivity
  | reflexivity | vm_compute; reflexivity | reflexivity
  | vm_compute; reflexivity | reflexivity | vm_compute; reflexivity ].

(** ** Laws of the computations *)

Section MonadLaws.
Context {Env : Type}.
Implicit Types w : World Env.

Lemma bind_ret {A B} (a : A) (k : A -> M Env B) w :
  bind (ret a) k w = k a w.
Proof. reflexivity. Qed.

Lemma bind_throw {A B} (e : JsError) (k : A -> M Env B) w :
  bind (throw e) k w = (Throw e, w).
Proof. reflexivity. Qed.

Lemma bind_normal {A B} (m : M Env A) (k : A -> M Env B) w a w' :
  m w = (Normal a, w') -> bind m k w = k a w'.
Proof. intros Hm. unfold bind. now rewrite Hm. Qed.

Lemma bind_thrown {A B} (m : M Env A) (k : A -> M Env B) w e w' :
  m w = (Throw e, w') -> bind m k w = (Throw e, w').
Proof. intros Hm. unfold bind. now rewrite Hm. Qed.

Lemma try_catch_normal {A} (m : M Env A) h w a w' :
  m w = (Normal a, w') -> try_catch m h w = (Normal a, w').
Proof. intros Hm. unfold try_catch. now rewrite Hm. Qed.

Lemma try_catch_thrown {A} (m : M Env A) h w e w' :
  m w = (Throw e, w') -> try_catch m h w = h e w'.
Proof. intros Hm. unfold try_catch. now rewrite Hm. Qed.

Lemma require_truthy (v : option string) (e : JsError) s w :
  v = Some s -> falsy (Some s) = false -> require v e w = (Normal s, w).
Proof. intros -> Hs. destruct s; [discriminate Hs | reflexivity]. Qed.

Lemma require_falsy (v : option string) (e : JsError) w :
  falsy v = true -> require (Env := Env) v e w = (Throw e, w).
Proof. destruct v as [[|c r]|]; [reflexivity | discriminate | reflexivity]. Qed.

(** [require] either hands back the value or throws the given error; the
    world is untouched either way. *)
Lemma require_cases (v : option string) (e : JsError) w :
  (exists s, v = Some s /\ falsy (Some s) = false
             /\ require v e w = (Normal s, w))
  \/ (falsy v = true /\ require v e w = (Throw e, w)).
Proof.
  destruct v as [[|c r]|]; [right | left | right]; try (split; reflexivity).
  exists (String c r). repeat split.
Qed.
End MonadLaws.

(** ** The validation stage, branch by branch *)

Section CsrfBranches.
Context {Env : Type} `{!Cookie, !CookieSignature, !Tokens Env}.
Implicit Types (w : World Env) (a : MiddlewareArgs) (req : NextApiRequest)
  (handler : NextApiHandler Env).

Lemma csrf_catch_run (error : JsError) w :
  csrf_catch error w = (Normal tt, respond error w).
Proof.
  unfold csrf_catch, bind, call, respond. cbn [res env].
  now rewrite <- app_assoc.
Qed.

Lemma respond_HttpError st msg w :
  respond (HttpError (Some st) msg) w
  = mkWorld (res w ++ [Status st; Json {| body_message := Some msg |}]) (env w).
Proof. reflexivity. Qed.

Lemma liftEnv_create_rotate a csrfSecret w (k : M Env unit) :
  (fresh <- liftEnv (create csrfSecret) ;;
   call (SetHeader "Set-Cookie"
           (Single (serialize (tokenKey a) (maybe_sign (secret a) fresh)
                      (cookieOptions a)))) ;;
   k) w
  = k (rotate a csrfSecret w).
Proof.
  unfold bind, liftEnv, call, rotate.
  destruct (create csrfSecret (env w)) as [fresh e']. reflexivity.
Qed.

Lemma unsign_step_ok a token working w :
  working_token a token = Some working ->
  falsy (Some working) = false ->
  unsign_step a token w = (Normal working, w).
Proof.
  unfold unsign_step, working_token. destruct (secret a) as [k|].
  - intros Hu Hw. now apply require_truthy.
  - intros [= ->] _. reflexivity.
Qed.

Lemma unsign_step_invalid a token w :
  falsy (Some token) = false ->
  falsy (working_token a token) = true ->
  unsign_step a token w
  = (Throw (HttpError (Some 403) (csrfErrorMessage a)), w).
Proof.
  unfold unsign_step, working_token. destruct (secret a) as [k|].
  - intros _ Hf. now apply require_falsy.
  - intros Ht Hf. congruence.
Qed.

(** Every failure of the cookie checks throws the same [HttpError], with
    the world as it was. *)
Lemma cookie_failure_throws handler a req m w :
  method req = Some m ->
  m ∉ ignoredMethods a ->
  CookieFailure a (cookie (headers req)) ->
  csrf_try handler a req w
  = (Throw (HttpError (Some 403) (csrfErrorMessage a)), w).
Proof.
  intros Hm Hin Hfail. unfold csrf_try. rewrite Hm.
  rewrite bool_decide_eq_false_2 by exact Hin.
  set (reject := HttpError (Some 403) (csrfErrorMessage a)).
  fold (unsign_step (Env := Env) a).
  inversion Hfail as [ | c Htok Hc | c Hsec Hc | c token Htok Hwork Hc
                     | c token csrfSecret working Htok Hsec Hwork Hver Hc ];
    clear Hfail; try reflexivity.
  - (* token cookie missing *)
    apply bind_thrown, require_falsy, Htok.
  - (* secret cookie missing *)
    destruct (require_cases (parse c !! tokenKey a) reject w)
      as [(t & _ & _ & Ht) | [_ Ht]].
    + rewrite (bind_normal _ _ _ _ _ Ht).
      apply bind_thrown, require_falsy, Hsec.
    + apply bind_thrown, Ht.
  - (* signature invalid *)
    rewrite Htok.
    destruct (require_cases (Some token) reject w)
      as [(t & [= <-] & Htruthy & Ht) | [_ Ht]]; [ | apply bind_thrown, Ht].
    rewrite (bind_normal _ _ _ _ _ Ht).
    destruct (require_cases (parse c !! "csrfSecret") reject w)
      as [(s & _ & _ & Hs) | [_ Hs]]; [ | apply bind_thrown, Hs].
    rewrite (bind_normal _ _ _ _ _ Hs).
    apply bind_thrown. now apply unsign_step_invalid.
  - (* token does not verify against the secret *)
    rewrite Htok, Hsec.
    destruct (require_cases (Some token) reject w)
      as [(t & [= <-] & Htruthy & Ht) | [_ Ht]]; [ | apply bind_thrown, Ht].
    rewrite (bind_normal _ _ _ _ _ Ht).
    destruct (require_cases (Some csrfSecret) reject w)
      as [(s & [= <-] & _ & Hs) | [_ Hs]]; [ | apply bind_thrown, Hs].
    rewrite (bind_normal _ _ _ _ _ Hs).
    destruct (falsy (Some working)) eqn:Hwf.
    + apply bind_thrown. apply unsign_step_invalid; [exact Htruthy|].
      now rewrite Hwork.
    + rewrite (bind_normal _ _ _ _ _ (unsign_step_ok _ _ _ w Hwork Hwf)).
      now rewrite Hver.
Qed.

Lemma validation_failure_throws handler a req w :
  ValidationFailure a req ->
  csrf_try handler a req w
  = (Throw (HttpError (Some 403) (csrfErrorMessage a)), w).
Proof.
  intros [Hm | m Hm Hin Hfail].
  - unfold csrf_try. now rewrite Hm.
  - now apply cookie_failure_throws with m.
Qed.

(** A request that reaches the handler: the [try] block is the handler
    run in the world [Delegates] names. *)
Lemma csrf_try_delegates handler a req w w1 :
  Delegates a req w w1 ->
  csrf_try handler a req w = handler req w1.
Proof.
  intros [m Hm Hin | csrfSecret [m c token working Hm Hin Hc Htok Ht Hsec Hs Hwork Hw Hver]];
    unfold csrf_try; rewrite Hm.
  - now rewrite bool_decide_eq_true_2.
  - rewrite bool_decide_eq_false_2 by exact Hin. rewrite Hc.
    fold (unsign_step (Env := Env) a).
    rewrite (bind_normal _ _ _ _ _ (require_truthy _ _ _ w Htok Ht)).
    rewrite (bind_normal _ _ _ _ _ (require_truthy _ _ _ w Hsec Hs)).
    rewrite (bind_normal _ _ _ _ _ (unsign_step_ok _ _ _ w Hwork Hw)).
    rewrite Hver. cbn [negb]. apply liftEnv_create_rotate.
Qed.
End CsrfBranches.

(** ** The situations cover every request *)

Section Coverage.
Context {Env : Type} `{!Cookie, !CookieSignature, !Tokens Env}.
Implicit Types (a : MiddlewareArgs) (req : NextApiRequest).

Lemma falsy_false_Some (v : option string) :
  falsy v = false -> exists s, v = Some s /\ falsy (Some s) = false.
Proof. destruct v as [s|]; [eauto | discriminate]. Qed.

Lemma cookie_checks_decide a (c : string) :
  CookieFailure a (Some c)
  \/ exists token csrfSecret working,
       parse c !! tokenKey a = Some token /\ falsy (Some token) = false
       /\ parse c !! "csrfSecret"%string = Some csrfSecret
       /\ falsy (Some csrfSecret) = false
       /\ working_token a token = Some working
       /\ falsy (Some working) = false
       /\ verify csrfSecret working = true.
Proof.
  destruct (falsy (parse c !! tokenKey a)) eqn:Htok.
  { left. now apply TokenCookieMissing. }
  destruct (falsy (parse c !! "csrfSecret"%string)) eqn:Hsec.
  { left. now apply SecretCookieMissing. }
  apply falsy_false_Some in Htok as (token & Htok & Ht).
  apply falsy_false_Some in Hsec as (csrfSecret & Hsec & Hs).
  destruct (falsy (working_token a token)) eqn:Hwork.
  { left. now apply SignatureInvalid with token. }
  apply falsy_false_Some in Hwork as (working & Hwork & Hw).
  destruct (verify csrfSecret working) eqn:Hver.
  - right. exists token, csrfSecret, working. repeat split; assumption.
  - left. now apply TokenSecretMismatch with token csrfSecret working.
Qed.

(** A request is exempt, or fails validation, or verifies. *)
Lemma validation_trichotomy a req :
  (exists m, method req = Some m /\ m ∈ ignoredMethods a)
  \/ ValidationFailure a req
  \/ exists csrfSecret, Verifies a req csrfSecret.
Proof.
  destruct (method req) as [m|] eqn:Hm; [ | right; left; now constructor].
  destruct (decide (m ∈ ignoredMethods a)) as [Hin|Hin]; [left; eauto | right].
  destruct (cookie (headers req)) as [c|] eqn:Hc.
  - destruct (cookie_checks_decide a c)
      as [Hfail | (token & s & working & H1 & H2 & H3 & H4 & H5 & H6 & H7)].
    + left. apply ProtectedFailure with m; [assumption..|]. now rewrite Hc.
    + right. exists s. now apply Verifies_intro with m c token working.
  - left. apply ProtectedFailure with m; [assumption..|]. rewrite Hc. constructor.
Qed.

(** The three situations exclude each other: the code takes one branch. *)
Lemma failure_excludes_delegation a req (w w1 : World Env) :
  ValidationFailure a req -> Delegates a req w w1 -> False.
Proof.
  intros Hfail Hdel.
  pose proof (validation_failure_throws (fun _ => ret tt) a req w Hfail) as Hthrow.
  rewrite (csrf_try_delegates _ a req w w1 Hdel) in Hthrow. discriminate Hthrow.
Qed.
End Coverage.

(** ** The validation stage: exempt methods, rotation, rejection *)

Section CsrfTheorems.
Context {Env : Type} `{!Cookie, !CookieSignature, !Tokens Env}.
Implicit Types (w : World Env) (a : MiddlewareArgs) (req : NextApiRequest)
  (handler : NextApiHandler Env).

(** C4.  A request whose method is in the exempt set is handed to the
    wrapped handler in the world as it came, whatever its cookie header
    (none included); the middleware writes no header before the call and
    nothing after it, so what the handler leaves is what [csrf] leaves
    (when the handler throws, the [catch] clause adds a status and a
    body, and still no header). *)
Theorem csrf_exempt_method_delegates handler a req m w :
  method req = Some m ->
  m ∈ ignoredMethods a ->
  csrf handler a req w = try_catch (handler req) csrf_catch w
  /\ (forall w', handler req w = (Normal tt, w') ->
                 csrf handler a req w = (Normal tt, w'))
  /\ (forall e w', handler req w = (Throw e, w') ->
                   csrf handler a req w = (Normal tt, respond e w')).
Proof.
  intros Hm Hin.
  assert (Htry : csrf_try handler a req w = handler req w)
    by (apply csrf_try_delegates; now apply Delegates_exempt with m).
  split; [ | split].
  - unfold csrf, try_catch. now rewrite Htry.
  - intros w' Hrun. apply try_catch_normal. now rewrite Htry.
  - intros e w' Hrun. unfold csrf. rewrite (try_catch_thrown _ _ w e w').
    + apply csrf_catch_run.
    + now rewrite Htry.
Qed.

(** C8.  Whatever error the [try] block raises, the response carries the
    status of the error, or 500 when the error has none, and the message
    of the error.  Each of the six validation failures raises
    [HttpError(403, csrfErrorMessage)], so its response is 403 with the
    configured message; [HttpError] without a status is 403 too. *)
Theorem csrf_rejection_status_and_message handler a req w :
  (forall e w', csrf_try handler a req w = (Throw e, w') ->
     csrf handler a req w
     = (Normal tt,
        mkWorld (res w' ++ [Status (match status e with
                                    | Some st => st
                                    | None => 500
                                    end);
                            Json {| body_message := message e |}])
                (env w')))
  /\ (ValidationFailure a req ->
      csrf_try handler a req w
      = (Throw {| status := Some 403; message := Some (csrfErrorMessage a) |}, w)
      /\ csrf handler a req w
         = (Normal tt,
            mkWorld (res w ++ [Status 403;
                               Json {| body_message := Some (csrfErrorMessage a) |}])
                    (env w)))
  /\ (forall msg, status (HttpError None msg) = Some 403).
Proof.
  split; [ | split].
  - intros e w' Hthrow. unfold csrf.
    rewrite (try_catch_thrown _ _ _ _ _ Hthrow). apply csrf_catch_run.
  - intros Hfail.
    pose proof (validation_failure_throws handler a req w Hfail) as Hthrow.
    split; [exact Hthrow | ].
    unfold csrf. rewrite (try_catch_thrown _ _ _ _ _ Hthrow).
    apply csrf_catch_run.
  - reflexivity.
Qed.

(** C9.  On each of the six validation failures the calls the middleware
    makes on the response are [status(403)] and [json(...)]: none of them
    writes [Set-Cookie], and no token is drawn from the random source. *)
Theorem csrf_rejection_writes_no_cookie handler a req w :
  ValidationFailure a req ->
  exists w',
    csrf handler a req w = (Normal tt, w')
    /\ calls_since w w'
       = [Status 403; Json {| body_message := Some (csrfErrorMessage a) |}]
    /\ filter (fun c => is_set_cookie c = true) (calls_since w w') = []
    /\ env w' = env w.
Proof.
  intros Hfail.
  exists (respond (HttpError (Some 403) (csrfErrorMessage a)) w).
  assert (Hcalls :
    calls_since w (respond (HttpError (Some 403) (csrfErrorMessage a)) w)
    = [Status 403; Json {| body_message := Some (csrfErrorMessage a) |}]).
  { unfold calls_since, respond. cbn [res]. now rewrite drop_app_length. }
  repeat split.
  - unfold csrf.
    rewrite (try_catch_thrown _ _ _ _ _
               (validation_failure_throws handler a req w Hfail)).
    apply csrf_catch_run.
  - exact Hcalls.
  - now rewrite Hcalls.
Qed.

(** C2, as the code has it.  When the wrapped handler is reached (exempt
    method, or verified request after rotation) and throws, the [catch]
    clause of the middleware takes the error: [csrf] completes normally,
    having answered with the status of the error (500 without one) and
    its message. *)
Theorem csrf_answers_for_handler_error handler a req w w1 e w' :
  Delegates a req w w1 ->
  handler req w1 = (Throw e, w') ->
  csrf handler a req w
  = (Normal tt,
     mkWorld (res w' ++ [Status (default 500 (status e));
                         Json {| body_message := message e |}])
             (env w')).
Proof.
  intros Hdel Hthrow. unfold csrf.
  rewrite (try_catch_thrown _ _ w e w').
  - apply csrf_catch_run.
  - now rewrite (csrf_try_delegates handler a req w w1 Hdel).
Qed.

(** C3, as the code has it.  A request whose method is not a string is
    rejected at the method check: 403 with the configured message, the
    cookie header unread, no header written, the handler not called. *)
Theorem csrf_rejects_unreadable_method handler a req w :
  method req = None ->
  csrf handler a req w
  = (Normal tt,
     mkWorld (res w ++ [Status 403;
                        Json {| body_message := Some (csrfErrorMessage a) |}])
             (env w)).
Proof.
  intros Hm. unfold csrf, try_catch, csrf_try. rewrite Hm.
  unfold throw. apply csrf_catch_run.
Qed.

(** C5.  With the default options, a [POST] without a cookie header is
    answered 403 [{message: "Invalid CSRF token"}]; the result is the
    same for every handler, which is never called. *)
Theorem csrf_default_post_without_cookie NODE_ENV handler req w :
  method req = Some "POST"%string ->
  cookie (headers req) = None ->
  nc_csrf (nextCsrf NODE_ENV noOptions) handler req w
  = (Normal tt,
     mkWorld (res w ++ [Status 403;
                        Json {| body_message := Some "Invalid CSRF token"%string |}])
             (env w)).
Proof.
  intros Hm Hc. cbn [nextCsrf nc_csrf]. unfold csrf.
  rewrite (try_catch_thrown _ _ w
             (HttpError (Some 403) "Invalid CSRF token") w).
  - apply csrf_catch_run.
  - apply cookie_failure_throws with "POST"%string; [exact Hm | | ].
    + cbn. intros Hin. repeat (apply elem_of_cons in Hin as [Heq | Hin];
                                [discriminate Heq | ]).
      now apply elem_of_nil in Hin.
    + rewrite Hc. constructor.
Qed.
End CsrfTheorems.

(** ** The setup stage *)

Section SetupTheorems.
Context {Env : Type} `{!Cookie, !CookieSignature, !Tokens Env}.
Implicit Types (w : World Env) (req : NextApiRequest)
  (handler : NextApiHandler Env).

(** The name [setup] asks [getSecret] for is lower-cased on the way to
    [getCookie]. *)
Lemma getSecret_csrfSecret req :
  getSecret req "csrfSecret" = getCookie req "csrfsecret".
Proof. reflexivity. Qed.

(** Both versions of [getCookie] give [||] the same choice. *)
Lemma getCookie_versions_agree req name :
  falsy (Some (getCookie_0_2_4 req name)) = falsy (getCookie req name)
  /\ (falsy (getCookie req name) = false ->
      getCookie req name = Some (getCookie_0_2_4 req name)).
Proof.
  unfold getCookie_0_2_4, getCookie.
  destruct (cookie (headers req)) as [c|]; [ | split; [reflexivity | discriminate]].
  destruct (parse c !! name) as [[|ch r]|]; split;
    (reflexivity || discriminate).
Qed.

(** [setup_secret] draws no secret: it either finds one or makes one, and
    touches the response in neither case. *)
Lemma setup_secret_run req w :
  exists csrfSecret e1,
    setup_secret req w = (Normal csrfSecret, mkWorld (res w) e1).
Proof.
  unfold setup_secret, or_else.
  assert (Hnew : exists csrfSecret e1,
             liftEnv secretSync w = (Normal csrfSecret, mkWorld (res w) e1)).
  { unfold liftEnv. destruct (secretSync (env w)) as [s e1]. eauto. }
  destruct (getSecret req "csrfSecret") as [[|ch r]|]; try exact Hnew.
  exists (String ch r), (env w). now destruct w.
Qed.

(** The secret [setup] uses depends on the cookie named [csrfsecret]
    alone: without it a new secret is generated, whatever the header
    holds under [csrfSecret]. *)
Lemma setup_secret_without_lowercase_cookie req c w :
  cookie (headers req) = Some c ->
  falsy (parse c !! "csrfsecret"%string) = true ->
  setup_secret req w = liftEnv secretSync w.
Proof.
  intros Hc Hlow. unfold setup_secret.
  rewrite getSecret_csrfSecret. unfold getCookie. rewrite Hc.
  now destruct (parse c !! "csrfsecret"%string) as [[|ch r]|].
Qed.

Lemma setup_secret_with_lowercase_cookie req c s w :
  cookie (headers req) = Some c ->
  parse c !! "csrfsecret"%string = Some s ->
  falsy (Some s) = false ->
  setup_secret req w = (Normal s, w).
Proof.
  intros Hc Hlow Hs. unfold setup_secret.
  rewrite getSecret_csrfSecret. unfold getCookie. rewrite Hc, Hlow.
  now destruct s.
Qed.

(** C1, on the code.  A request that carries a non-empty [csrfSecret]
    cookie, and no cookie under the lower-cased name [csrfsecret], does
    not get its secret back: [setup] generates a new secret, writes it in
    the [csrfSecret] directive and derives the token from it. *)
Theorem setup_replaces_existing_secret handler (a : SetupMiddlewareArgs)
  (args : SetupArgs) (c s : string) w :
  cookie (headers (setup_req args)) = Some c ->
  parse c !! "csrfSecret"%string = Some s ->
  falsy (Some s) = false ->
  falsy (parse c !! "csrfsecret"%string) = true ->
  exists newSecret unsignedToken e1 e2,
    secretSync (env w) = (newSecret, e1)
    /\ create newSecret e1 = (unsignedToken, e2)
    /\ setup handler a args w
       = handler (setup_req args)
           (mkWorld
              (res w ++ [SetHeader "Set-Cookie"
                           (Multi [serialize "csrfSecret" newSecret (su_cookieOptions a);
                                   serialize (su_tokenKey a)
                                     (maybe_sign (su_secret a) unsignedToken)
                                     (su_cookieOptions a)])])
              e2).
Proof.
  intros Hc _ _ Hlow.
  destruct (secretSync (env w)) as [newSecret e1] eqn:Hnew.
  destruct (create newSecret e1) as [unsignedToken e2] eqn:Hcreate.
  exists newSecret, unsignedToken, e1, e2.
  split; [reflexivity | split; [exact Hcreate | ]].
  unfold setup.
  rewrite (bind_normal _ _ w newSecret (mkWorld (res w) e1)).
  - unfold bind at 1. unfold liftEnv at 1. cbn [env res]. now rewrite Hcreate.
  - rewrite (setup_secret_without_lowercase_cookie _ c w Hc Hlow).
    unfold liftEnv. now rewrite Hnew.
Qed.
End SetupTheorems.

(** ** [nextCsrf]: user options over defaults *)

Section NextCsrfTheorems.
Context {Env : Type} `{!Cookie, !CookieSignature, !Tokens Env}.

(** C10.  The middleware pair [nextCsrf] returns runs with arguments [eff]
    taken field by field: a supplied [cookieOptions] record is used as it
    is, with no attribute filled in from the defaults ([httpOnly], [path],
    [sameSite], [secure] are those of the caller's record, absent when the
    caller left them out); an option that is not supplied has its
    default. *)
Theorem nextCsrf_merges_options_shallowly NODE_ENV (u : NextCsrfOptions) :
  exists eff : MiddlewareArgs,
    (forall handler : NextApiHandler Env,
        nc_csrf (nextCsrf NODE_ENV u) handler = csrf handler eff)
    /\ (forall handler : NextApiHandler Env,
           nc_setup (nextCsrf NODE_ENV u) handler
           = setup handler {| su_tokenKey := tokenKey eff;
                              su_cookieOptions := cookieOptions eff;
                              su_secret := secret eff |})
    /\ secret eff = opt_secret u
    /\ (forall co, opt_cookieOptions u = Some co ->
          cookieOptions eff = co
          /\ httpOnly (cookieOptions eff) = httpOnly co
          /\ path (cookieOptions eff) = path co
          /\ sameSite (cookieOptions eff) = sameSite co
          /\ secure (cookieOptions eff) = secure co)
    /\ (opt_cookieOptions u = None ->
          cookieOptions eff
          = {| domain := None; httpOnly := Some true; maxAge := None;
               path := Some "/"%string; sameSite := Some SameSiteLax;
               secure := Some (bool_decide (NODE_ENV = Some "production"%string)) |})
    /\ (forall k, opt_tokenKey u = Some k -> tokenKey eff = k)
    /\ (opt_tokenKey u = None -> tokenKey eff = "XSRF-TOKEN"%string)
    /\ (forall msg, opt_csrfErrorMessage u = Some msg -> csrfErrorMessage eff = msg)
    /\ (opt_csrfErrorMessage u = None ->
          csrfErrorMessage eff = "Invalid CSRF token"%string)
    /\ (forall ms, opt_ignoredMethods u = Some ms -> ignoredMethods eff = ms)
    /\ (opt_ignoredMethods u = None ->
          ignoredMethods eff = ["GET"; "HEAD"; "OPTIONS"]%string).
Proof.
  exists {| mw_required := spread (defaultOptions NODE_ENV) u;
            secret := opt_secret u |}.
  destruct u as [ms msg k co sec]. cbn.
  repeat match goal with
         | |- _ /\ _ => split
         | |- forall _, _ => intro
         end; subst; reflexivity.
Qed.
End NextCsrfTheorems.

(** ** Beyond the branches: what [csrf] reads, keeps and never does *)

Section CsrfFurther.
Context {Env : Type} `{!Cookie, !CookieSignature, !Tokens Env}.
Implicit Types (w : World Env) (a : MiddlewareArgs) (req : NextApiRequest)
  (handler : NextApiHandler Env).

(** X3.  Of a request, [csrf] reads the method and two cookies, the token
    cookie and [csrfSecret]: two requests that agree on these get the same
    run (the handler put aside: it is given the request). *)
Theorem csrf_reads_method_and_two_cookies a req1 req2 (k : M Env unit) w :
  method req1 = method req2 ->
  cookies_read a req1 = cookies_read a req2 ->
  csrf (fun _ => k) a req1 w = csrf (fun _ => k) a req2 w.
Proof.
  intros Hm Hread. unfold csrf, try_catch, csrf_try. rewrite Hm.
  destruct (method req2) as [m|]; [ | reflexivity].
  destruct (bool_decide (m ∈ ignoredMethods a)); [reflexivity | ].
  unfold cookies_read in Hread.
  destruct (cookie (headers req1)) as [c1|], (cookie (headers req2)) as [c2|];
    try discriminate Hread; [ | reflexivity].
  injection Hread as Htok Hsec. now rewrite Htok, Hsec.
Qed.

(** X4.  Tokens are not single-use: a request that was accepted is accepted
    again when it is sent a second time, with the token the first run has
    rotated out, in the world the first run left. *)
Theorem csrf_accepts_replayed_request handler a req csrfSecret w w' :
  Verifies a req csrfSecret ->
  handler req (rotate a csrfSecret w) = (Normal tt, w') ->
  csrf handler a req w = (Normal tt, w')
  /\ csrf handler a req w'
     = try_catch (handler req) csrf_catch (rotate a csrfSecret w').
Proof.
  intros Hv Hrun.
  assert (Htry : forall w0, csrf_try handler a req w0
                            = handler req (rotate a csrfSecret w0))
    by (intros w0; apply csrf_try_delegates; now apply Delegates_verified).
  split.
  - apply try_catch_normal. now rewrite Htry.
  - unfold csrf, try_catch. now rewrite Htry.
Qed.

(** X5.  The rotated token is good for the next request: when the token
    [csrf] has just derived verifies against the secret (and, with a
    signing key, unsigns to itself), a request that brings back the secret
    and the value of the new token cookie is accepted in turn. *)
Theorem csrf_accepts_rotated_token handler a req csrfSecret w m req' c' w2 :
  Verifies a req csrfSecret ->
  let fresh := fst (create csrfSecret (env w)) in
  let sent := maybe_sign (secret a) fresh in
  verify csrfSecret fresh = true ->
  falsy (Some fresh) = false ->
  falsy (Some sent) = false ->
  working_token a sent = Some fresh ->
  method req' = Some m ->
  m ∉ ignoredMethods a ->
  cookie (headers req') = Some c' ->
  parse c' !! "csrfSecret"%string = Some csrfSecret ->
  parse c' !! tokenKey a = Some sent ->
  calls_since w (rotate a csrfSecret w)
  = [SetHeader "Set-Cookie" (Single (serialize (tokenKey a) sent (cookieOptions a)))]
  /\ csrf handler a req' w2
     = try_catch (handler req') csrf_catch (rotate a csrfSecret w2).
Proof.
  intros Hv fresh sent Hver Hfresh Hsent Hwork Hm Hin Hc Hsec Htok.
  split.
  - unfold calls_since, rotate, sent, fresh.
    destruct (create csrfSecret (env w)) as [t e']. cbn [res fst].
    now rewrite drop_app_length.
  - assert (Hv' : Verifies a req' csrfSecret).
    { destruct Hv as [? ? ? ? _ _ _ _ _ _ Hs _ _ _].
      now apply Verifies_intro with m c' sent fresh. }
    unfold csrf, try_catch.
    now rewrite (csrf_try_delegates handler a req' w2 _
                   (Delegates_verified a req' w2 csrfSecret Hv')).
Qed.

(** X7.  When the token cookie is itself named [csrfSecret] and no signing
    key is configured, the token and the secret are the same cookie value:
    a protected request whose secret does not verify as its own token is
    rejected. *)
Theorem csrf_token_named_csrfSecret handler a req m c w :
  tokenKey a = "csrfSecret"%string ->
  secret a = None ->
  method req = Some m ->
  m ∉ ignoredMethods a ->
  cookie (headers req) = Some c ->
  (forall s, parse c !! "csrfSecret"%string = Some s -> verify s s = false) ->
  csrf handler a req w
  = (Normal tt,
     mkWorld (res w ++ [Status 403;
                        Json {| body_message := Some (csrfErrorMessage a) |}])
             (env w)).
Proof.
  intros Hkey Hnokey Hm Hin Hc Hself. unfold csrf.
  rewrite (try_catch_thrown _ _ w (HttpError (Some 403) (csrfErrorMessage a)) w);
    [apply csrf_catch_run | ].
  apply cookie_failure_throws with m; [exact Hm | exact Hin | ]. rewrite Hc.
  destruct (cookie_checks_decide a c)
    as [Hfail | (token & s & working & Htok & _ & Hsec & _ & Hwork & _ & Hver)];
    [exact Hfail | exfalso].
  rewrite Hkey, Hsec in Htok. injection Htok as <-.
  unfold working_token in Hwork. rewrite Hnokey in Hwork. injection Hwork as <-.
  rewrite (Hself s Hsec) in Hver. discriminate Hver.
Qed.
End CsrfFurther.

(** ** Beyond the two directives: what [setup] reads and lets through *)

Section SetupFurther.
Context {Env : Type} `{!Cookie, !CookieSignature, !Tokens Env}.
Implicit Types (w : World Env) (req : NextApiRequest)
  (handler : NextApiHandler Env) (a : SetupMiddlewareArgs).



(** The run of [setup] up to the call of the handler. *)
Lemma setup_reaches_handler handler a (args : SetupArgs) w :
  exists s t e1 e2,
    setup_secret (setup_req args) w = (Normal s, mkWorld (res w) e1)
    /\ create s e1 = (t, e2)
    /\ setup handler a args w
       = handler (setup_req args)
           (after_setup a s (maybe_sign (su_secret a) t) w e2).
Proof.
  destruct (setup_secret_run (setup_req args) w) as (s & e1 & Hsec).
  destruct (create s e1) as [t e2] eqn:Hcreate.
  exists s, t, e1, e2. split; [exact Hsec | split; [exact Hcreate | ]].
  unfold setup. rewrite (bind_normal _ _ _ _ _ Hsec).
  unfold bind at 1. unfold liftEnv at 1. cbn [env res]. now rewrite Hcreate.
Qed.

(** X9.  The 0.2.5 change of [getCookie] ([null] instead of [''] for a
    cookie that is not there) leaves [setup] as it was: over either
    version, the same secret is chosen and the same draws are made. *)
Theorem setup_secret_same_over_both_getCookie req w :
  getCookie_0_2_4 req "csrfsecret" = default ""%string (getCookie req "csrfsecret")
  /\ setup_secret_0_2_4 req w = setup_secret req w.
Proof.
  assert (Hrel : forall name,
             getCookie_0_2_4 req name = default ""%string (getCookie req name)).
  { intros name. unfold getCookie_0_2_4, getCookie.
    now destruct (cookie (headers req)). }
  split; [apply Hrel | ].
  unfold setup_secret_0_2_4, setup_secret, getSecret_0_2_4, getSecret.
  rewrite Hrel.
  now destruct (getCookie req (toLowerCase "csrfSecret")) as [[|ch r]|].
Qed.

End SetupFurther.

(** ** [nextCsrf]: the pair works together *)

Section NextCsrfFurther.
Context {Env : Type} `{!Cookie, !CookieSignature, !Tokens Env}.
Implicit Types (w : World Env) (req : NextApiRequest)
  (handler : NextApiHandler Env) (u : NextCsrfOptions).

Lemma nc_csrf_effective NODE_ENV u handler :
  nc_csrf (nextCsrf NODE_ENV u) handler = csrf handler (effective NODE_ENV u).
Proof. reflexivity. Qed.

(** X13.  The two middlewares of one [nextCsrf] call agree on the cookie
    name and on the signing key: when the token [setup] derived verifies
    against its secret (and, with a key, unsigns to itself), a protected
    request that brings back the two cookie values [setup] wrote is
    accepted by [csrf], which rotates the token and calls the handler. *)
Theorem nextCsrf_setup_then_csrf NODE_ENV u handler (args : SetupArgs) w
  (s t : string) (e1 e2 : Env) :
  setup_secret (setup_req args) w = (Normal s, mkWorld (res w) e1) ->
  create s e1 = (t, e2) ->
  let a := effective NODE_ENV u in
  let sent := maybe_sign (opt_secret u) t in
  falsy (Some s) = false ->
  falsy (Some t) = false ->
  falsy (Some sent) = false ->
  working_token a sent = Some t ->
  verify s t = true ->
  nc_setup (nextCsrf NODE_ENV u) handler args w
  = handler (setup_req args)
      (mkWorld
         (res w ++ [SetHeader "Set-Cookie"
                      (Multi [serialize "csrfSecret" s (cookieOptions a);
                              serialize (tokenKey a) sent (cookieOptions a)])])
         e2)
  /\ forall handler' req' m c w',
       method req' = Some m ->
       m ∉ ignoredMethods a ->
       cookie (headers req') = Some c ->
       parse c !! "csrfSecret"%string = Some s ->
       parse c !! tokenKey a = Some sent ->
       nc_csrf (nextCsrf NODE_ENV u) handler' req' w'
       = try_catch (handler' req') csrf_catch (rotate a s w').
Proof.
  intros Hsec Hcreate a sent Hs Ht Hsent Hwork Hver. split.
  - cbn [nextCsrf nc_setup]. unfold setup.
    rewrite (bind_normal _ _ _ _ _ Hsec).
    unfold bind at 1. unfold liftEnv at 1. cbn [env res]. now rewrite Hcreate.
  - intros handler' req' m c w' Hm Hin Hc Hsecret Htok.
    rewrite nc_csrf_effective. fold a. unfold csrf, try_catch.
    rewrite (csrf_try_delegates handler' a req' w' (rotate a s w')); [reflexivity | ].
    apply Delegates_verified.
    now apply Verifies_intro with m c sent t.
Qed.

(** X14.  Through [nextCsrf], every validation failure is answered 403
    with the message of the caller when one is supplied, and with
    ["Invalid CSRF token"] otherwise; nothing else is written. *)
Theorem nextCsrf_rejection_message NODE_ENV u handler req w :
  ValidationFailure (effective NODE_ENV u) req ->
  nc_csrf (nextCsrf NODE_ENV u) handler req w
  = (Normal tt,
     mkWorld
       (res w ++ [Status 403;
                  Json {| body_message :=
                            Some (match opt_csrfErrorMessage u with
                                  | Some msg => msg
                                  | None => "Invalid CSRF token"%string
                                  end) |}])
       (env w)).
Proof.
  intros Hfail. rewrite nc_csrf_effective. unfold csrf.
  rewrite (try_catch_thrown _ _ _ _ _
             (validation_failure_throws handler _ req w Hfail)).
  rewrite csrf_catch_run. unfold respond. cbn.
  now destruct (opt_csrfErrorMessage u).
Qed.

(** X15.  With the default list, exactly the strings [GET], [HEAD] and
    [OPTIONS] are exempt: a request with any other method string (a
    lower-case [get] is one) and no cookie header is rejected. *)
Theorem nextCsrf_default_protects_unlisted_methods NODE_ENV u handler req
  (m : string) w :
  opt_ignoredMethods u = None ->
  method req = Some m ->
  m <> "GET"%string -> m <> "HEAD"%string -> m <> "OPTIONS"%string ->
  cookie (headers req) = None ->
  nc_csrf (nextCsrf NODE_ENV u) handler req w
  = (Normal tt,
     mkWorld
       (res w ++ [Status 403;
                  Json {| body_message :=
                            Some (default "Invalid CSRF token"%string
                                    (opt_csrfErrorMessage u)) |}])
       (env w)).
Proof.
  intros Hdefault Hm Hget Hhead Hoptions Hc.
  rewrite nc_csrf_effective. unfold csrf.
  rewrite (try_catch_thrown _ _ w
             (HttpError (Some 403) (csrfErrorMessage (effective NODE_ENV u))) w).
  - rewrite csrf_catch_run. reflexivity.
  - apply cookie_failure_throws with m; [exact Hm | | rewrite Hc; constructor].
    cbn. rewrite Hdefault. cbn. intros Hin.
    apply elem_of_cons in Hin as [-> | Hin]; [now apply Hget | ].
    apply elem_of_cons in Hin as [-> | Hin]; [now apply Hhead | ].
    apply elem_of_cons in Hin as [-> | Hin]; [now apply Hoptions | ].
    now apply elem_of_nil in Hin.
Qed.
End NextCsrfFurther.

(** ** The checks, branch by branch *)

Section ChecksBranches.
Context {Env : Type} `{!Cookie, !CookieSignature, !Tokens Env}.
Implicit Types (w : World Env) (a : MiddlewareArgs) (req : NextApiRequest)
  (exempt : M Env unit) (verified : string -> M Env unit).

Lemma csrf_checks_exempt a req m exempt verified w :
  method req = Some m ->
  m ∈ ignoredMethods a ->
  csrf_checks a req exempt verified w = exempt w.
Proof.
  intros Hm Hin. unfold csrf_checks. rewrite Hm.
  now rewrite bool_decide_eq_true_2.
Qed.

Lemma csrf_checks_failure a req exempt verified w :
  ValidationFailure a req ->
  csrf_checks a req exempt verified w
  = (Throw (HttpError (Some 403) (csrfErrorMessage a)), w).
Proof.
  intros [Hm | m Hm Hin Hfail]; unfold csrf_checks; rewrite Hm; [reflexivity | ].
  rewrite bool_decide_eq_false_2 by exact Hin.
  set (reject := HttpError (Some 403) (csrfErrorMessage a)).
  destruct (cookie (headers req)) as [c|]; [ | reflexivity].
  destruct (require_cases (parse c !! tokenKey a) reject w)
    as [(token & Htok & Ht & Hrun) | [_ Hrun]]; [ | apply bind_thrown, Hrun].
  rewrite (bind_normal _ _ _ _ _ Hrun). clear Hrun.
  destruct (require_cases (parse c !! "csrfSecret"%string) reject w)
    as [(s & Hsec & Hs & Hrun) | [_ Hrun]]; [ | apply bind_thrown, Hrun].
  rewrite (bind_normal _ _ _ _ _ Hrun). clear Hrun.
  destruct (falsy (working_token a token)) eqn:Hfalsy.
  { apply bind_thrown. now apply unsign_step_invalid. }
  destruct (working_token a token) as [working|] eqn:Hwork; [ | discriminate Hfalsy].
  rewrite (bind_normal _ _ _ _ _ (unsign_step_ok a token working w Hwork Hfalsy)).
  destruct (verify s working) eqn:Hver; [exfalso | reflexivity].
  (* every check passes: the request does not fail *)
  inversion Hfail as [ | c' Htok' | c' Hsec' | c' token' Htok' Hwork'
                     | c' token' s' working' Htok' Hsec' Hwork' Hver' ]; subst c'.
  - rewrite Htok in Htok'. congruence.
  - rewrite Hsec in Hsec'. congruence.
  - rewrite Htok in Htok'. injection Htok' as <-. congruence.
  - rewrite Htok in Htok'. injection Htok' as <-.
    rewrite Hsec in Hsec'. injection Hsec' as <-.
    rewrite Hwork in Hwork'. injection Hwork' as <-. congruence.
Qed.

Lemma csrf_checks_verified a req csrfSecret exempt verified w :
  Verifies a req csrfSecret ->
  csrf_checks a req exempt verified w = verified csrfSecret w.
Proof.
  intros [m c token working Hm Hin Hc Htok Ht Hsec Hs Hwork Hw Hver].
  unfold csrf_checks. rewrite Hm.
  rewrite bool_decide_eq_false_2 by exact Hin. rewrite Hc.
  rewrite (bind_normal _ _ _ _ _ (require_truthy _ _ _ w Htok Ht)).
  rewrite (bind_normal _ _ _ _ _ (require_truthy _ _ _ w Hsec Hs)).
  rewrite (bind_normal _ _ _ _ _ (unsign_step_ok _ _ _ w Hwork Hw)).
  now rewrite Hver.
Qed.
End ChecksBranches.

(** ** The middleware with the check of [cookie.serialize] *)

Section StrictBranches.
Context {Env : Type} `{!Cookie, !CookieCheck, !CookieSignature, !Tokens Env}.
Implicit Types (w : World Env) (a : MiddlewareArgs) (req : NextApiRequest)
  (handler : NextApiHandler Env).

Lemma serialize_call_accepted name val o w :
  serialize_error name val o = None ->
  Strict.serialize_call name val o w = (Normal (serialize name val o), w).
Proof. intros Hok. unfold Strict.serialize_call. now rewrite Hok. Qed.

Lemma serialize_call_refused name val o e w :
  serialize_error name val o = Some e ->
  Strict.serialize_call (Env := Env) name val o w = (Throw e, w).
Proof. intros Hno. unfold Strict.serialize_call. now rewrite Hno. Qed.

Lemma strict_csrf_try_as_checks handler a req :
  Strict.csrf_try handler a req
  = csrf_checks a req (handler req)
      (fun csrfSecret =>
         fresh <- liftEnv (create csrfSecret) ;;
         tokenCookie <- Strict.serialize_call (tokenKey a)
                          (maybe_sign (secret a) fresh) (cookieOptions a) ;;
         call (SetHeader "Set-Cookie" (Single tokenCookie)) ;;
         handler req).
Proof. reflexivity. Qed.

Lemma csrf_try_as_checks handler a req :
  csrf_try handler a req
  = csrf_checks a req (handler req)
      (fun csrfSecret =>
         fresh <- liftEnv (create csrfSecret) ;;
         call (SetHeader "Set-Cookie"
                 (Single (serialize (tokenKey a) (maybe_sign (secret a) fresh)
                            (cookieOptions a)))) ;;
         handler req).
Proof. reflexivity. Qed.

(** The rotation of [Strict.csrf_try]: the token is drawn, then the check
    decides between the write and the [TypeError]. *)
Lemma strict_rotation_accepted handler a req csrfSecret w :
  serialize_error (tokenKey a) (rotated_token a csrfSecret w) (cookieOptions a) = None ->
  (fresh <- liftEnv (create csrfSecret) ;;
   tokenCookie <- Strict.serialize_call (tokenKey a)
                    (maybe_sign (secret a) fresh) (cookieOptions a) ;;
   call (SetHeader "Set-Cookie" (Single tokenCookie)) ;;
   handler req) w
  = handler req (rotate a csrfSecret w).
Proof.
  unfold rotated_token, rotate, bind, liftEnv, Strict.serialize_call, call.
  destruct (create csrfSecret (env w)) as [fresh e']. cbn [fst res env].
  now intros ->.
Qed.

Lemma strict_rotation_refused handler a req csrfSecret e w :
  serialize_error (tokenKey a) (rotated_token a csrfSecret w) (cookieOptions a) = Some e ->
  (fresh <- liftEnv (create csrfSecret) ;;
   tokenCookie <- Strict.serialize_call (tokenKey a)
                    (maybe_sign (secret a) fresh) (cookieOptions a) ;;
   call (SetHeader "Set-Cookie" (Single tokenCookie)) ;;
   handler req) w
  = (Throw e, drawn csrfSecret w).
Proof.
  unfold rotated_token, drawn, bind, liftEnv, Strict.serialize_call.
  destruct (create csrfSecret (env w)) as [fresh e']. cbn [fst snd res env].
  now intros ->.
Qed.

Lemma strict_csrf_exempt handler a req m w :
  method req = Some m ->
  m ∈ ignoredMethods a ->
  Strict.csrf handler a req w = try_catch (handler req) csrf_catch w.
Proof.
  intros Hm Hin. unfold Strict.csrf, try_catch.
  rewrite strict_csrf_try_as_checks.
  now rewrite (csrf_checks_exempt a req m _ _ w Hm Hin).
Qed.

Lemma strict_csrf_rejects handler a req w :
  ValidationFailure a req ->
  Strict.csrf handler a req w
  = (Normal tt, respond (HttpError (Some 403) (csrfErrorMessage a)) w).
Proof.
  intros Hfail. unfold Strict.csrf, try_catch.
  rewrite strict_csrf_try_as_checks.
  rewrite (csrf_checks_failure a req _ _ w Hfail). apply csrf_catch_run.
Qed.

Lemma strict_csrf_rotates handler a req csrfSecret w :
  Verifies a req csrfSecret ->
  serialize_error (tokenKey a) (rotated_token a csrfSecret w) (cookieOptions a) = None ->
  Strict.csrf handler a req w
  = try_catch (handler req) csrf_catch (rotate a csrfSecret w).
Proof.
  intros Hv Hok. unfold Strict.csrf, try_catch.
  rewrite strict_csrf_try_as_checks.
  rewrite (csrf_checks_verified a req csrfSecret _ _ w Hv).
  now rewrite (strict_rotation_accepted handler a req csrfSecret w Hok).
Qed.

Lemma strict_csrf_refused handler a req csrfSecret e w :
  Verifies a req csrfSecret ->
  serialize_error (tokenKey a) (rotated_token a csrfSecret w) (cookieOptions a) = Some e ->
  Strict.csrf handler a req w = (Normal tt, respond e (drawn csrfSecret w)).
Proof.
  intros Hv Hno. unfold Strict.csrf, try_catch.
  rewrite strict_csrf_try_as_checks.
  rewrite (csrf_checks_verified a req csrfSecret _ _ w Hv).
  rewrite (strict_rotation_refused handler a req csrfSecret e w Hno).
  apply csrf_catch_run.
Qed.

(** Where the check passes, the middleware with it is the middleware
    without it. *)
Lemma strict_csrf_accepted handler a req w :
  (forall csrfSecret,
      Verifies a req csrfSecret ->
      serialize_error (tokenKey a) (rotated_token a csrfSecret w) (cookieOptions a)
      = None) ->
  Strict.csrf handler a req w = csrf handler a req w.
Proof.
  intros Hok.
  destruct (validation_trichotomy a req) as [(m & Hm & Hin) | [Hfail | (s & Hv)]].
  - rewrite (strict_csrf_exempt handler a req m w Hm Hin).
    unfold csrf, try_catch.
    now rewrite (csrf_try_delegates handler a req w w (Delegates_exempt a req w m Hm Hin)).
  - rewrite (strict_csrf_rejects handler a req w Hfail). unfold csrf.
    rewrite (try_catch_thrown _ _ _ _ _ (validation_failure_throws handler a req w Hfail)).
    now rewrite csrf_catch_run.
  - rewrite (strict_csrf_rotates handler a req s w Hv (Hok s Hv)).
    unfold csrf, try_catch.
    now rewrite (csrf_try_delegates handler a req w _ (Delegates_verified a req w s Hv)).
Qed.

(** The run of [Strict.setup] up to the two calls of [serialize]. *)
Lemma strict_setup_prefix handler (a : SetupMiddlewareArgs) (args : SetupArgs) w :
  exists s t e1 e2,
    setup_secret (setup_req args) w = (Normal s, mkWorld (res w) e1)
    /\ create s e1 = (t, e2)
    /\ Strict.setup handler a args w
       = (secretCookie <- Strict.serialize_call "csrfSecret" s (su_cookieOptions a) ;;
          tokenCookie <- Strict.serialize_call (su_tokenKey a)
                           (maybe_sign (su_secret a) t) (su_cookieOptions a) ;;
          call (SetHeader "Set-Cookie" (Multi [secretCookie; tokenCookie])) ;;
          handler (setup_req args)) (mkWorld (res w) e2).
Proof.
  destruct (setup_secret_run (setup_req args) w) as (s & e1 & Hsec).
  destruct (create s e1) as [t e2] eqn:Hcreate.
  exists s, t, e1, e2. split; [exact Hsec | split; [exact Hcreate | ]].
  unfold Strict.setup. rewrite (bind_normal _ _ _ _ _ Hsec).
  unfold bind at 1. unfold liftEnv at 1. cbn [env res]. now rewrite Hcreate.
Qed.

Lemma strict_setup_accepted handler (a : SetupMiddlewareArgs) (args : SetupArgs) w :
  (forall name val, serialize_error name val (su_cookieOptions a) = None) ->
  Strict.setup handler a args w = setup handler a args w.
Proof.
  intros Hok.
  destruct (strict_setup_prefix handler a args w) as (s & t & e1 & e2 & Hsec & Hcreate & ->).
  rewrite (bind_normal _ _ _ _ _ (serialize_call_accepted _ _ _ _ (Hok _ _))).
  rewrite (bind_normal _ _ _ _ _ (serialize_call_accepted _ _ _ _ (Hok _ _))).
  unfold setup. rewrite (bind_normal _ _ _ _ _ Hsec).
  unfold bind at 2. unfold liftEnv at 1. cbn [env res]. now rewrite Hcreate.
Qed.
End StrictBranches.

(** ** The validation stage with the check: rotation *)

(** C6, as the code has it.  For a request that passes verification the
    token is drawn, and the check of [cookie.serialize] decides.  When it
    accepts the token cookie, the middleware makes one call before the
    handler, [Set-Cookie] with the single directive of the token cookie,
    holding the fresh token (signed when a key is configured), and a
    handler that completes leaves the response as it made it.  When it
    refuses, the middleware answers for the [TypeError] (500 without a
    status), writes no [Set-Cookie] and does not call the handler.  In
    neither case is a cookie named [csrfSecret] serialized, unless that is
    the name of the token cookie: the run is the same for every [cookie]
    package that differs only on that name. *)
Theorem csrf_verified_rotation {Env : Type} (C : Cookie) (K : CookieCheck)
  (S : CookieSignature) (T : Tokens Env)
  (handler : NextApiHandler Env) (a : MiddlewareArgs) (req : NextApiRequest)
  (csrfSecret : string) (w : World Env) :
  Verifies a req csrfSecret ->
  let fresh := fst (create csrfSecret (env w)) in
  let newToken := match secret a with
                  | Some k => sign fresh k
                  | None => fresh
                  end in
  (serialize_error (tokenKey a) newToken (cookieOptions a) = None ->
   let w1 := rotate a csrfSecret w in
   calls_since w w1
   = [SetHeader "Set-Cookie"
        (Single (serialize (tokenKey a) newToken (cookieOptions a)))]
   /\ Strict.csrf handler a req w = try_catch (handler req) csrf_catch w1
   /\ (forall w', handler req w1 = (Normal tt, w') ->
                  Strict.csrf handler a req w = (Normal tt, w')))
  /\ (forall e,
        serialize_error (tokenKey a) newToken (cookieOptions a) = Some e ->
        Strict.csrf handler a req w
        = (Normal tt,
           mkWorld (res w ++ [Status (default 500 (status e));
                              Json {| body_message := message e |}])
                   (snd (create csrfSecret (env w)))))
  /\ (tokenKey a <> "csrfSecret"%string ->
      forall (C' : Cookie) (K' : CookieCheck),
        (forall c, @parse C' c = @parse C c) ->
        (forall name val o,
            name <> "csrfSecret"%string ->
            @serialize C' name val o = @serialize C name val o
            /\ @serialize_error K' name val o = @serialize_error K name val o) ->
        @Strict.csrf Env C' K' S T handler a req w
        = @Strict.csrf Env C K S T handler a req w).
Proof.
  intros Hv fresh newToken.
  assert (Htoken : rotated_token a csrfSecret w = newToken) by reflexivity.
  split; [ | split].
  - intros Hok w1.
    assert (Hrun : Strict.csrf handler a req w = try_catch (handler req) csrf_catch w1).
    { apply strict_csrf_rotates; [exact Hv | now rewrite Htoken]. }
    split; [ | split; [exact Hrun | ]].
    + unfold calls_since, w1, rotate, newToken, fresh, maybe_sign.
      destruct (create csrfSecret (env w)) as [t e']. cbn [res fst].
      now rewrite drop_app_length.
    + intros w' Hdone. rewrite Hrun. now apply try_catch_normal.
  - intros e Hno.
    apply (strict_csrf_refused handler a req csrfSecret e w Hv).
    now rewrite Htoken.
  - intros Hname C' K' Hparse Hsame.
    assert (Hv' : @Verifies Env C' S T a req csrfSecret).
    { destruct Hv as [m c token working Hm Hin Hc Htok Ht Hsec Hs Hwork Hw Hver].
      apply (@Verifies_intro Env C' S T a req csrfSecret m c token working);
        try assumption; now rewrite Hparse. }
    destruct (Hsame (tokenKey a) newToken (cookieOptions a) Hname) as [Htext Hcheck].
    destruct (@serialize_error K (tokenKey a) newToken (cookieOptions a)) as [e|] eqn:Hk.
    + rewrite (@strict_csrf_refused Env C K S T handler a req csrfSecret e w Hv)
        by now rewrite Htoken.
      apply (@strict_csrf_refused Env C' K' S T handler a req csrfSecret e w Hv').
      now rewrite Htoken, Hcheck.
    + rewrite (@strict_csrf_rotates Env C K S T handler a req csrfSecret w Hv)
        by now rewrite Htoken.
      rewrite (@strict_csrf_rotates Env C' K' S T handler a req csrfSecret w Hv')
        by now rewrite Htoken, Hcheck.
      f_equal. unfold rotate.
      destruct (create csrfSecret (env w)) as [t e'].
      now rewrite (proj1 (Hsame (tokenKey a) (maybe_sign (secret a) t)
                            (cookieOptions a) Hname)).
Qed.

(** ** The middleware with the check: [setup] and the remaining cases *)

Section StrictTheorems.
Context {Env : Type} `{!Cookie, !CookieCheck, !CookieSignature, !Tokens Env}.
Implicit Types (w : World Env) (a : MiddlewareArgs) (req : NextApiRequest)
  (handler : NextApiHandler Env).

(** C7, as the code has it.  Every run of [setup], in either calling
    shape, chooses the secret and derives the token (signed exactly when a
    key is configured), then serializes the two cookies with the
    configured attributes, [csrfSecret] first.  When [cookie.serialize]
    accepts both, one call is made on the response before the handler:
    [Set-Cookie] with the array of the two directives.  When it refuses
    one, its [TypeError] comes out of [setup]: no header is written and
    the handler is not called. *)
Theorem setup_two_cookies_or_type_error handler (su : SetupMiddlewareArgs)
  (args : SetupArgs) w :
  exists csrfSecret unsignedToken e1 e2,
    setup_secret (setup_req args) w = (Normal csrfSecret, mkWorld (res w) e1)
    /\ create csrfSecret e1 = (unsignedToken, e2)
    /\ let token := match su_secret su with
                    | Some k => sign unsignedToken k
                    | None => unsignedToken
                    end in
       let o := su_cookieOptions su in
       (serialize_error "csrfSecret" csrfSecret o = None ->
        serialize_error (su_tokenKey su) token o = None ->
        Strict.setup handler su args w
        = handler (setup_req args)
            (mkWorld
               (res w ++ [SetHeader "Set-Cookie"
                            (Multi [serialize "csrfSecret" csrfSecret o;
                                    serialize (su_tokenKey su) token o])])
               e2))
       /\ (forall e,
             serialize_error "csrfSecret" csrfSecret o = Some e ->
             Strict.setup handler su args w = (Throw e, mkWorld (res w) e2))
       /\ (forall e,
             serialize_error "csrfSecret" csrfSecret o = None ->
             serialize_error (su_tokenKey su) token o = Some e ->
             Strict.setup handler su args w = (Throw e, mkWorld (res w) e2)).
Proof.
  destruct (strict_setup_prefix handler su args w)
    as (s & t & e1 & e2 & Hsec & Hcreate & Hrun).
  exists s, t, e1, e2. split; [exact Hsec | split; [exact Hcreate | ]].
  cbn zeta. fold (maybe_sign (su_secret su) t). rewrite Hrun.
  split; [ | split].
  - intros Hok1 Hok2.
    rewrite (bind_normal _ _ _ _ _ (serialize_call_accepted _ _ _ _ Hok1)).
    now rewrite (bind_normal _ _ _ _ _ (serialize_call_accepted _ _ _ _ Hok2)).
  - intros e Hno. apply bind_thrown. now apply serialize_call_refused.
  - intros e Hok1 Hno.
    rewrite (bind_normal _ _ _ _ _ (serialize_call_accepted _ _ _ _ Hok1)).
    apply bind_thrown. now apply serialize_call_refused.
Qed.

(** X2.  Every run of [csrf] is one of four.  A validation failure is
    answered 403 with the configured message, whatever the handler.  For
    an exempt method the handler runs inside the [try] block on the world
    as it came.  For a verified request whose token cookie
    [cookie.serialize] accepts, the handler runs after the one write of
    the rotation.  For a verified request whose token cookie it refuses,
    the [TypeError] is answered (500 without a status) after the draw of
    the token, whatever the handler.  The handler is reached in the second
    and third case only. *)
Theorem csrf_run_cases a req w :
  (ValidationFailure a req
   /\ forall handler,
        Strict.csrf handler a req w
        = (Normal tt,
           mkWorld (res w ++ [Status 403;
                              Json {| body_message := Some (csrfErrorMessage a) |}])
                   (env w)))
  \/ (exists m,
        method req = Some m /\ m ∈ ignoredMethods a
        /\ forall handler,
             Strict.csrf handler a req w = try_catch (handler req) csrf_catch w)
  \/ (exists csrfSecret,
        Verifies a req csrfSecret
        /\ serialize_error (tokenKey a) (rotated_token a csrfSecret w)
             (cookieOptions a) = None
        /\ forall handler,
             Strict.csrf handler a req w
             = try_catch (handler req) csrf_catch (rotate a csrfSecret w))
  \/ (exists csrfSecret e,
        Verifies a req csrfSecret
        /\ serialize_error (tokenKey a) (rotated_token a csrfSecret w)
             (cookieOptions a) = Some e
        /\ forall handler,
             Strict.csrf handler a req w
             = (Normal tt,
                mkWorld (res w ++ [Status (default 500 (status e));
                                   Json {| body_message := message e |}])
                        (snd (create csrfSecret (env w))))).
Proof.
  destruct (validation_trichotomy a req) as [(m & Hm & Hin) | [Hfail | (s & Hv)]].
  - right; left. exists m. repeat split; try assumption.
    intros handler. now apply strict_csrf_exempt with m.
  - left. split; [exact Hfail | ]. intros handler.
    now apply strict_csrf_rejects.
  - right; right.
    destruct (serialize_error (tokenKey a) (rotated_token a s w) (cookieOptions a))
      as [e|] eqn:Hcheck.
    + right. exists s, e. repeat split; try assumption.
      intros handler. now apply strict_csrf_refused.
    + left. exists s. repeat split; try assumption.
      intros handler. now apply strict_csrf_rotates.
Qed.

(** X6.  With an empty list of exempt methods nothing is exempt: a request
    that does not verify is answered 403 whatever its method ([GET]
    included) and whatever the handler, which is reached only through
    verification. *)
Theorem csrf_without_exempt_methods handler a req w :
  ignoredMethods a = [] ->
  (forall csrfSecret, ~ Verifies a req csrfSecret) ->
  Strict.csrf handler a req w
  = (Normal tt,
     mkWorld (res w ++ [Status 403;
                        Json {| body_message := Some (csrfErrorMessage a) |}])
             (env w)).
Proof.
  intros Hnone Hnot.
  destruct (validation_trichotomy a req) as [(m & _ & Hin) | [Hfail | (s & Hv)]].
  - rewrite Hnone in Hin. now apply elem_of_nil in Hin.
  - now apply strict_csrf_rejects.
  - now destruct (Hnot s).
Qed.


(** X10.  What [setup] does keep is the secret of a cookie named
    [csrfsecret]: when the request has a non-empty one and
    [cookie.serialize] accepts the two cookies, that value goes into the
    [csrfSecret] directive, the token is derived from it, and no new
    secret is generated (the only draw is the one of the token). *)
Theorem setup_keeps_csrfsecret_cookie handler (su : SetupMiddlewareArgs)
  (args : SetupArgs) (c s : string) w :
  cookie (headers (setup_req args)) = Some c ->
  parse c !! "csrfsecret"%string = Some s ->
  falsy (Some s) = false ->
  let t := fst (create s (env w)) in
  let sent := match su_secret su with
              | Some k => sign t k
              | None => t
              end in
  serialize_error "csrfSecret" s (su_cookieOptions su) = None ->
  serialize_error (su_tokenKey su) sent (su_cookieOptions su) = None ->
  Strict.setup handler su args w
  = handler (setup_req args)
      (mkWorld
         (res w ++ [SetHeader "Set-Cookie"
                      (Multi [serialize "csrfSecret" s (su_cookieOptions su);
                              serialize (su_tokenKey su) sent (su_cookieOptions su)])])
         (snd (create s (env w)))).
Proof.
  intros Hc Hlow Hs t sent Hok1 Hok2. unfold Strict.setup.
  rewrite (bind_normal _ _ _ _ _
             (setup_secret_with_lowercase_cookie _ c s w Hc Hlow Hs)).
  unfold bind at 1. unfold liftEnv at 1.
  subst sent t. destruct (create s (env w)) as [t e'] eqn:Hcreate. cbn [fst snd] in *.
  fold (maybe_sign (su_secret su) t) in Hok2.
  rewrite (bind_normal _ _ _ _ _ (serialize_call_accepted _ _ _ _ Hok1)).
  now rewrite (bind_normal _ _ _ _ _ (serialize_call_accepted _ _ _ _ Hok2)).
Qed.

(** X11.  Of a request, [setup] reads the [csrfsecret] cookie and nothing
    else (not the method, not the token cookie, not [csrfSecret]): two
    calls whose requests agree on that cookie, in either calling shape,
    get the same run (the handler put aside: it is given the request). *)
Theorem setup_reads_csrfsecret_cookie_only (su : SetupMiddlewareArgs)
  (args1 args2 : SetupArgs) (k : M Env unit) w :
  getCookie (setup_req args1) "csrfsecret" = getCookie (setup_req args2) "csrfsecret" ->
  Strict.setup (fun _ => k) su args1 w = Strict.setup (fun _ => k) su args2 w.
Proof.
  intros Hsame. unfold Strict.setup, setup_secret.
  now rewrite !getSecret_csrfSecret, Hsame.
Qed.

(** X12.  [setup] has no [catch].  Once the two cookies are written (the
    secret and the token [setup] chose, accepted by [cookie.serialize]),
    the handler runs, and an error it throws comes out of [setup] as it
    is, with the world as the handler left it. *)
Theorem setup_lets_handler_error_through handler (su : SetupMiddlewareArgs)
  (args : SetupArgs) w (s t : string) (e1 e2 : Env) (e : JsError) w' :
  setup_secret (setup_req args) w = (Normal s, mkWorld (res w) e1) ->
  create s e1 = (t, e2) ->
  let sent := maybe_sign (su_secret su) t in
  serialize_error "csrfSecret" s (su_cookieOptions su) = None ->
  serialize_error (su_tokenKey su) sent (su_cookieOptions su) = None ->
  handler (setup_req args) (after_setup su s sent w e2) = (Throw e, w') ->
  calls_since w (after_setup su s sent w e2)
  = [SetHeader "Set-Cookie"
       (Multi [serialize "csrfSecret" s (su_cookieOptions su);
               serialize (su_tokenKey su) sent (su_cookieOptions su)])]
  /\ Strict.setup handler su args w = (Throw e, w').
Proof.
  intros Hsec Hcreate sent Hok1 Hok2 Hthrow. split.
  - unfold calls_since, after_setup. cbn [res]. now rewrite drop_app_length.
  - unfold Strict.setup. rewrite (bind_normal _ _ _ _ _ Hsec).
    unfold bind at 1. unfold liftEnv at 1. cbn [env res]. rewrite Hcreate.
    fold sent.
    rewrite (bind_normal _ _ _ _ _ (serialize_call_accepted _ _ _ _ Hok1)).
    rewrite (bind_normal _ _ _ _ _ (serialize_call_accepted _ _ _ _ Hok2)).
    exact Hthrow.
Qed.
End StrictTheorems.

(** ** The middleware on concrete requests *)

Import Doubles.

Example doubles_parse_first_wins :
  parse "a=1; b=2; a=3" !! "a"%string = Some "1"%string
  /\ parse "a=1; b=2; a=3" !! "c"%string = None.
Proof. split; vm_compute; reflexivity. Qed.

Example doubles_unsign_sign :
  unsign (sign "r9-abc" "k") "k" = Some "r9-abc"%string
  /\ unsign "r9-abc.j" "k" = None
  /\ unsign "r9-abd.k" "j" = None.
Proof. repeat split. Qed.

(** Scenario B with the doubles: the cookies [setup] sets pass [csrf]. *)
Example setup_then_csrf :
  setup okHandler defaultSetupArgs (ApiArgs getRequest) world0
  = (Normal tt,
     mkWorld
       [SetHeader "Set-Cookie"
          (Multi ["csrfSecret=r1; Path=/"%string; "XSRF-TOKEN=r2-r1; Path=/"%string]);
        Status 200; Json {| body_message := Some "ok"%string |}]
       ["r3"%string])
  /\ csrf okHandler defaultArgs
       (postRequest (Some "csrfSecret=r1; XSRF-TOKEN=r2-r1"%string))
       (mkWorld [] ["r3"%string])
     = (Normal tt,
        mkWorld
          [SetHeader "Set-Cookie" (Single "XSRF-TOKEN=r3-r1; Path=/"%string);
           Status 200; Json {| body_message := Some "ok"%string |}]
          []).
Proof. split; vm_compute; reflexivity. Qed.

(** Scenario C with the doubles: a signed token with one character changed
    is rejected, and the same cookie untouched is accepted. *)
Example tampered_signature_rejected :
  csrf okHandler signedArgs
    (postRequest (Some "csrfSecret=abc; XSRF-TOKEN=r9-abc.j"%string)) world0
  = (Normal tt,
     mkWorld [Status 403; Json {| body_message := Some "Invalid CSRF token"%string |}]
             (env world0))
  /\ csrf okHandler signedArgs (postRequest (Some signedCookies)) world0
     = (Normal tt,
        mkWorld
          [SetHeader "Set-Cookie" (Single "XSRF-TOKEN=r1-abc.k; Path=/"%string);
           Status 200; Json {| body_message := Some "ok"%string |}]
          ["r2"; "r3"]%string).
Proof. split; vm_compute; reflexivity. Qed.
(** C1 at [Cookie: csrfSecret=abc]: the directive carries the first draw
    [r1], not [abc]. *)
Lemma setup_replaces_existing_secret_witness :
  parse "csrfSecret=abc" !! "csrfSecret"%string = Some "abc"%string
  /\ parse "csrfSecret=abc" !! "csrfsecret"%string = None
  /\ setup okHandler defaultSetupArgs
       (ApiArgs (request (Some "GET"%string) (Some "csrfSecret=abc"%string))) world0
     = okHandler (request (Some "GET"%string) (Some "csrfSecret=abc"%string))
         (mkWorld
            [SetHeader "Set-Cookie"
               (Multi ["csrfSecret=r1; Path=/"%string;
                       "XSRF-TOKEN=r2-r1; Path=/"%string])]
            ["r3"%string]).
Proof.
  assert (Hup : parse "csrfSecret=abc" !! "csrfSecret"%string = Some "abc"%string)
    by (vm_compute; reflexivity).
  assert (Hlow : parse "csrfSecret=abc" !! "csrfsecret"%string = None)
    by (vm_compute; reflexivity).
  destruct (setup_replaces_existing_secret okHandler defaultSetupArgs
              (ApiArgs (request (Some "GET"%string) (Some "csrfSecret=abc"%string)))
              "csrfSecret=abc" "abc" world0 eq_refl Hup eq_refl
              (f_equal falsy Hlow))
    as (newSecret & unsignedToken & e1 & e2 & Hnew & Hcreate & Hrun).
  injection Hnew as <- <-. injection Hcreate as <- <-.
  exact (conj Hup (conj Hlow Hrun)).
Defined.

(** The secret is kept for the header that names the cookie [csrfsecret]. *)
Example setup_keeps_lowercase_named_secret :
  setup okHandler defaultSetupArgs
    (ApiArgs (request (Some "GET"%string) (Some "csrfsecret=abc"%string))) world0
  = (Normal tt,
     mkWorld
       [SetHeader "Set-Cookie"
          (Multi ["csrfSecret=abc; Path=/"%string; "XSRF-TOKEN=r1-abc; Path=/"%string]);
        Status 200; Json {| body_message := Some "ok"%string |}]
       ["r2"; "r3"]%string).
Proof. vm_compute; reflexivity. Qed.

(** C2, as stated, fails: the handler throws [new Error("boom")] on an
    exempt [GET] and on a verified [POST]; in both runs [csrf] completes
    normally with a 500 response carrying the message of the error, so the
    error does not reach the caller. *)
Lemma handler_error_is_intercepted :
  failingHandler getRequest world0 = (Throw (Error "boom"), world0)
  /\ csrf failingHandler defaultArgs getRequest world0
     = (Normal tt,
        mkWorld [Status 500; Json {| body_message := Some "boom"%string |}]
                (env world0))
  /\ fst (csrf failingHandler defaultArgs getRequest world0)
     <> Throw (Error "boom")
  /\ csrf failingHandler defaultArgs (postRequest (Some goodCookies)) world0
     = (Normal tt,
        mkWorld
          [SetHeader "Set-Cookie" (Single "XSRF-TOKEN=r1-abc; Path=/"%string);
           Status 500; Json {| body_message := Some "boom"%string |}]
          ["r2"; "r3"]%string)
  /\ fst (csrf failingHandler defaultArgs (postRequest (Some goodCookies)) world0)
     <> Throw (Error "boom").
Proof.
  repeat split; try (vm_compute; reflexivity); vm_compute; discriminate.
Qed.

(** The amended C2 on the exempt [GET] whose handler throws. *)
Lemma csrf_answers_for_handler_error_witness :
  Delegates defaultArgs getRequest world0 world0
  /\ failingHandler getRequest world0 = (Throw (Error "boom"), world0)
  /\ csrf failingHandler defaultArgs getRequest world0
     = (Normal tt,
        mkWorld [Status 500; Json {| body_message := Some "boom"%string |}]
                (env world0)).
Proof.
  assert (Hdel : Delegates defaultArgs getRequest world0 world0).
  { apply Delegates_exempt with "GET"%string; [reflexivity | left]. }
  assert (Hthrow : failingHandler getRequest world0 = (Throw (Error "boom"), world0))
    by reflexivity.
  exact (conj Hdel (conj Hthrow
           (csrf_answers_for_handler_error failingHandler defaultArgs getRequest
              world0 world0 (Error "boom") world0 Hdel Hthrow))).
Defined.

(** C3, as stated, fails: the cookies verify (the same request as a [POST]
    reaches the handler), yet without a method the answer is 403 and the
    handler is not called. *)
Lemma unreadable_method_is_rejected :
  Verifies defaultArgs (postRequest (Some goodCookies)) "abc"
  /\ csrf okHandler defaultArgs (postRequest (Some goodCookies)) world0
     = (Normal tt,
        mkWorld
          [SetHeader "Set-Cookie" (Single "XSRF-TOKEN=r1-abc; Path=/"%string);
           Status 200; Json {| body_message := Some "ok"%string |}]
          ["r2"; "r3"]%string)
  /\ csrf okHandler defaultArgs (request None (Some goodCookies)) world0
     = (Normal tt,
        mkWorld [Status 403; Json {| body_message := Some "Invalid CSRF token"%string |}]
                (env world0)).
Proof.
  split; [ | split; vm_compute; reflexivity].
  verifies_with "POST"%string goodCookies "r9-abc"%string "r9-abc"%string.
Qed.

(** The amended C3 on a request without a method and with good cookies. *)
Lemma csrf_rejects_unreadable_method_witness :
  method (request None (Some goodCookies)) = None
  /\ csrf okHandler defaultArgs (request None (Some goodCookies)) world0
     = (Normal tt,
        mkWorld [Status 403; Json {| body_message := Some "Invalid CSRF token"%string |}]
                (env world0)).
Proof.
  split; [reflexivity | ].
  exact (csrf_rejects_unreadable_method okHandler defaultArgs
           (request None (Some goodCookies)) world0 eq_refl).
Defined.

(** C4 on a [GET] without cookies, default options. *)
Lemma csrf_exempt_method_delegates_witness :
  "GET"%string ∈ ignoredMethods defaultArgs
  /\ csrf okHandler defaultArgs getRequest world0
     = try_catch (okHandler getRequest) csrf_catch world0
  /\ (forall w', okHandler getRequest world0 = (Normal tt, w') ->
                 csrf okHandler defaultArgs getRequest world0 = (Normal tt, w')).
Proof.
  assert (Hin : "GET"%string ∈ ignoredMethods defaultArgs) by left.
  destruct (csrf_exempt_method_delegates okHandler defaultArgs getRequest
              "GET"%string world0 eq_refl Hin) as (Hrun & Hnormal & _).
  exact (conj Hin (conj Hrun Hnormal)).
Defined.

(** C5 on the doubles. *)
Lemma csrf_default_post_without_cookie_witness :
  nc_csrf (nextCsrf None noOptions) okHandler (postRequest None) world0
  = (Normal tt,
     mkWorld [Status 403; Json {| body_message := Some "Invalid CSRF token"%string |}]
             (env world0)).
Proof.
  exact (csrf_default_post_without_cookie None okHandler (postRequest None) world0
           eq_refl eq_refl).
Defined.

(** C8 on an error without a status (500) and on a missing cookie header
    (403). *)
Lemma csrf_rejection_status_and_message_witness :
  (csrf_try failingHandler defaultArgs getRequest world0
   = (Throw (Error "boom"), world0)
   /\ csrf failingHandler defaultArgs getRequest world0
      = (Normal tt,
         mkWorld [Status 500; Json {| body_message := Some "boom"%string |}]
                 (env world0)))
  /\ (ValidationFailure defaultArgs (postRequest None)
      /\ csrf okHandler defaultArgs (postRequest None) world0
         = (Normal tt,
            mkWorld [Status 403;
                     Json {| body_message := Some "Invalid CSRF token"%string |}]
                    (env world0))).
Proof.
  assert (Hthrow : csrf_try failingHandler defaultArgs getRequest world0
                   = (Throw (Error "boom"), world0)) by reflexivity.
  assert (Hfail : ValidationFailure defaultArgs (postRequest None)).
  { apply ProtectedFailure with "POST"%string;
      [reflexivity | not_listed | apply CookieHeaderMissing]. }
  split.
  - exact (conj Hthrow
             (proj1 (csrf_rejection_status_and_message failingHandler defaultArgs
                       getRequest world0) (Error "boom") world0 Hthrow)).
  - exact (conj Hfail
             (proj2 (proj1 (proj2 (csrf_rejection_status_and_message okHandler
                                     defaultArgs (postRequest None) world0))
                       Hfail))).
Defined.

(** C9 on a [POST] whose token belongs to another secret. *)
Lemma csrf_rejection_writes_no_cookie_witness :
  ValidationFailure defaultArgs (postRequest (Some staleCookies))
  /\ exists w',
       csrf okHandler defaultArgs (postRequest (Some staleCookies)) world0
       = (Normal tt, w')
       /\ calls_since world0 w'
          = [Status 403; Json {| body_message := Some "Invalid CSRF token"%string |}]
       /\ filter (fun c => is_set_cookie c = true) (calls_since world0 w') = []
       /\ env w' = env world0.
Proof.
  assert (Hfail : ValidationFailure defaultArgs (postRequest (Some staleCookies))).
  { apply ProtectedFailure with "POST"%string; [reflexivity | not_listed | ].
    apply (TokenSecretMismatch defaultArgs staleCookies
             "r9-xyz"%string "abc"%string "r9-xyz"%string);
      vm_compute; reflexivity. }
  exact (conj Hfail
           (csrf_rejection_writes_no_cookie okHandler defaultArgs
              (postRequest (Some staleCookies)) world0 Hfail)).
Defined.

(** C10 on [nextCsrf({ cookieOptions: { secure: true } })]. *)
Lemma nextCsrf_merges_options_shallowly_witness :
  exists eff : MiddlewareArgs,
    (forall handler : NextApiHandler Tape,
        nc_csrf (nextCsrf (Some "production"%string) secureOnly) handler
        = csrf handler eff)
    /\ httpOnly (cookieOptions eff) = None
    /\ path (cookieOptions eff) = None
    /\ sameSite (cookieOptions eff) = None
    /\ secure (cookieOptions eff) = Some true
    /\ tokenKey eff = "XSRF-TOKEN"%string
    /\ csrfErrorMessage eff = "Invalid CSRF token"%string
    /\ ignoredMethods eff = ["GET"; "HEAD"; "OPTIONS"]%string.
Proof.
  destruct (nextCsrf_merges_options_shallowly (Env := Tape)
              (Some "production"%string) secureOnly)
    as (eff & Hcsrf & _ & _ & Hco & _ & _ & Hkey & _ & Hmsg & _ & Hms).
  destruct (Hco _ eq_refl) as (_ & Hh & Hp & Hs & Hsec).
  exists eff.
  exact (conj Hcsrf (conj Hh (conj Hp (conj Hs (conj Hsec
           (conj (Hkey eq_refl) (conj (Hmsg eq_refl) (Hms eq_refl)))))))).
Defined.

(** With [{ secure: true }] as the only cookie option, the directives
    [setup] writes have lost the default [Path=/]. *)
Example setup_with_secure_only :
  nc_setup (nextCsrf None secureOnly) okHandler (ApiArgs getRequest) world0
  = (Normal tt,
     mkWorld
       [SetHeader "Set-Cookie"
          (Multi ["csrfSecret=r1"%string; "XSRF-TOKEN=r2-r1"%string]);
        Status 200; Json {| body_message := Some "ok"%string |}]
       ["r3"%string]).
Proof. vm_compute; reflexivity. Qed.

(** ** Further runs on concrete requests *)

Import Fixtures.

(** X3 on two [POST]s whose headers differ in order and in a third cookie. *)
Lemma csrf_reads_method_and_two_cookies_witness :
  cookies_read defaultArgs (postRequest (Some goodCookies))
  = cookies_read defaultArgs
      (postRequest (Some "other=1; XSRF-TOKEN=r9-abc; csrfSecret=abc"%string))
  /\ csrf (fun _ => okHandler getRequest) defaultArgs
       (postRequest (Some goodCookies)) world0
     = csrf (fun _ => okHandler getRequest) defaultArgs
         (postRequest (Some "other=1; XSRF-TOKEN=r9-abc; csrfSecret=abc"%string))
         world0.
Proof.
  assert (Hread :
    cookies_read defaultArgs (postRequest (Some goodCookies))
    = cookies_read defaultArgs
        (postRequest (Some "other=1; XSRF-TOKEN=r9-abc; csrfSecret=abc"%string)))
    by (vm_compute; reflexivity).
  exact (conj Hread
           (csrf_reads_method_and_two_cookies defaultArgs _ _
              (okHandler getRequest) world0 eq_refl Hread)).
Defined.

(** X4 on the good [POST], sent twice. *)
Lemma csrf_accepts_replayed_request_witness :
  Verifies defaultArgs (postRequest (Some goodCookies)) "abc"
  /\ csrf okHandler defaultArgs (postRequest (Some goodCookies)) world0
     = (Normal tt,
        mkWorld
          [SetHeader "Set-Cookie" (Single "XSRF-TOKEN=r1-abc; Path=/"%string);
           Status 200; Json {| body_message := Some "ok"%string |}]
          ["r2"; "r3"]%string)
  /\ csrf okHandler defaultArgs (postRequest (Some goodCookies))
       (mkWorld
          [SetHeader "Set-Cookie" (Single "XSRF-TOKEN=r1-abc; Path=/"%string);
           Status 200; Json {| body_message := Some "ok"%string |}]
          ["r2"; "r3"]%string)
     = try_catch (okHandler (postRequest (Some goodCookies))) csrf_catch
         (rotate defaultArgs "abc"
            (mkWorld
               [SetHeader "Set-Cookie" (Single "XSRF-TOKEN=r1-abc; Path=/"%string);
                Status 200; Json {| body_message := Some "ok"%string |}]
               ["r2"; "r3"]%string)).
Proof.
  assert (Hv : Verifies defaultArgs (postRequest (Some goodCookies)) "abc").
  { verifies_with "POST"%string goodCookies "r9-abc"%string "r9-abc"%string. }
  exact (conj Hv
           (csrf_accepts_replayed_request okHandler defaultArgs
              (postRequest (Some goodCookies)) "abc" world0 _ Hv eq_refl)).
Defined.

(** X5 with the signing key ["k"]: the token of the first answer is the
    cookie of the second request. *)
Lemma csrf_accepts_rotated_token_witness :
  Verifies signedArgs (postRequest (Some signedCookies)) "abc"
  /\ calls_since world0 (rotate signedArgs "abc" world0)
     = [SetHeader "Set-Cookie" (Single "XSRF-TOKEN=r1-abc.k; Path=/"%string)]
  /\ csrf okHandler signedArgs
       (postRequest (Some "csrfSecret=abc; XSRF-TOKEN=r1-abc.k"%string))
       (mkWorld [] ["r2"; "r3"]%string)
     = try_catch
         (okHandler (postRequest (Some "csrfSecret=abc; XSRF-TOKEN=r1-abc.k"%string)))
         csrf_catch
         (rotate signedArgs "abc" (mkWorld [] ["r2"; "r3"]%string)).
Proof.
  assert (Hv : Verifies signedArgs (postRequest (Some signedCookies)) "abc").
  { verifies_with "POST"%string signedCookies "r9-abc.k"%string "r9-abc"%string. }
  assert (Hout : "POST"%string ∉ ignoredMethods signedArgs) by not_listed.
  assert (Hsec : parse "csrfSecret=abc; XSRF-TOKEN=r1-abc.k" !! "csrfSecret"%string
                 = Some "abc"%string) by (vm_compute; reflexivity).
  assert (Htok : parse "csrfSecret=abc; XSRF-TOKEN=r1-abc.k" !! tokenKey signedArgs
                 = Some "r1-abc.k"%string) by (vm_compute; reflexivity).
  exact (conj Hv
           (csrf_accepts_rotated_token okHandler signedArgs
              (postRequest (Some signedCookies)) "abc" world0 "POST"%string
              (postRequest (Some "csrfSecret=abc; XSRF-TOKEN=r1-abc.k"%string))
              "csrfSecret=abc; XSRF-TOKEN=r1-abc.k" (mkWorld [] ["r2"; "r3"]%string)
              Hv eq_refl eq_refl eq_refl eq_refl eq_refl Hout eq_refl Hsec Htok)).
Defined.

(** X7 on a [POST] that carries a secret. *)
Lemma csrf_token_named_csrfSecret_witness :
  parse "csrfSecret=abc" !! "csrfSecret"%string = Some "abc"%string
  /\ verify "abc" "abc" = false
  /\ csrf okHandler collapsedArgs (postRequest (Some "csrfSecret=abc"%string)) world0
     = (Normal tt,
        mkWorld [Status 403; Json {| body_message := Some "Invalid CSRF token"%string |}]
                (env world0)).
Proof.
  assert (Hsec : parse "csrfSecret=abc" !! "csrfSecret"%string = Some "abc"%string)
    by (vm_compute; reflexivity).
  assert (Hout : "POST"%string ∉ ignoredMethods collapsedArgs) by not_listed.
  assert (Hself : forall s, parse "csrfSecret=abc" !! "csrfSecret"%string = Some s ->
                            verify s s = false).
  { intros s Hs. rewrite Hsec in Hs. injection Hs as <-. reflexivity. }
  exact (conj Hsec (conj eq_refl
           (csrf_token_named_csrfSecret okHandler collapsedArgs
              (postRequest (Some "csrfSecret=abc"%string)) "POST"%string
              "csrfSecret=abc" world0 eq_refl eq_refl eq_refl Hout eq_refl Hself))).
Defined.

(** X13 with the signing key ["k"]: [setup] on a first visit, then a
    [POST] with the two cookies. *)
Lemma nextCsrf_setup_then_csrf_witness :
  nc_setup (nextCsrf None keyOptions) okHandler (ApiArgs getRequest) world0
  = okHandler getRequest
      (mkWorld
         [SetHeader "Set-Cookie"
            (Multi ["csrfSecret=r1; Path=/"%string;
                    "XSRF-TOKEN=r2-r1.k; Path=/"%string])]
         ["r3"%string])
  /\ nc_csrf (nextCsrf None keyOptions) okHandler
       (postRequest (Some "csrfSecret=r1; XSRF-TOKEN=r2-r1.k"%string))
       (mkWorld [] ["r3"%string])
     = try_catch
         (okHandler (postRequest (Some "csrfSecret=r1; XSRF-TOKEN=r2-r1.k"%string)))
         csrf_catch
         (rotate (effective None keyOptions) "r1" (mkWorld [] ["r3"%string])).
Proof.
  assert (Hsec : setup_secret (setup_req (ApiArgs getRequest)) world0
                 = (Normal "r1"%string, mkWorld (res world0) ["r2"; "r3"]%string))
    by reflexivity.
  assert (Hcreate : create "r1" ["r2"; "r3"]%string
                    = ("r2-r1"%string, ["r3"%string])) by reflexivity.
  assert (Hwork : working_token (effective None keyOptions)
                    (maybe_sign (opt_secret keyOptions) "r2-r1")
                  = Some "r2-r1"%string) by reflexivity.
  assert (Hver : verify "r1" "r2-r1" = true) by reflexivity.
  assert (Hsent : falsy (Some (maybe_sign (opt_secret keyOptions) "r2-r1")) = false)
    by (vm_compute; reflexivity).
  destruct (nextCsrf_setup_then_csrf None keyOptions okHandler (ApiArgs getRequest)
              world0 "r1" "r2-r1" ["r2"; "r3"]%string ["r3"%string]
              Hsec Hcreate eq_refl eq_refl Hsent Hwork Hver)
    as [Hsetup Hcsrf].
  split; [exact Hsetup | ].
  apply (Hcsrf okHandler _ "POST"%string "csrfSecret=r1; XSRF-TOKEN=r2-r1.k"%string);
    [reflexivity | not_listed | reflexivity
    | vm_compute; reflexivity | vm_compute; reflexivity].
Defined.

(** X14 with a message of the caller, on a [POST] without cookies. *)
Lemma nextCsrf_rejection_message_witness :
  ValidationFailure (effective None messageOptions) (postRequest None)
  /\ nc_csrf (nextCsrf None messageOptions) okHandler (postRequest None) world0
     = (Normal tt,
        mkWorld [Status 403; Json {| body_message := Some "Custom CSRF error"%string |}]
                (env world0)).
Proof.
  assert (Hfail : ValidationFailure (effective None messageOptions) (postRequest None)).
  { apply ProtectedFailure with "POST"%string;
      [reflexivity | not_listed | apply CookieHeaderMissing]. }
  exact (conj Hfail
           (nextCsrf_rejection_message None messageOptions okHandler
              (postRequest None) world0 Hfail)).
Defined.

(** X15 on a lower-case [get]. *)
Lemma nextCsrf_default_protects_unlisted_methods_witness :
  nc_csrf (nextCsrf None noOptions) okHandler
    (request (Some "get"%string) None) world0
  = (Normal tt,
     mkWorld [Status 403; Json {| body_message := Some "Invalid CSRF token"%string |}]
             (env world0)).
Proof.
  apply (nextCsrf_default_protects_unlisted_methods None noOptions okHandler
           (request (Some "get"%string) None) "get"%string world0);
    try reflexivity; discriminate.
Defined.

(** ** Runs with the check of [cookie.serialize] *)

Import StrictDoubles.

(** C6, as stated, fails: the request verifies, yet with the token cookie
    named [XSRF TOKEN], which [cookie.serialize] refuses, the middleware
    answers 500 with the message of the [TypeError]; no [Set-Cookie] is
    written and the handler (which would answer 200) is not called. *)
Lemma rotation_refused_answers_500 :
  Verifies spacedArgs (postRequest (Some spacedCookies)) "abc"
  /\ Strict.csrf okHandler spacedArgs (postRequest (Some spacedCookies)) world0
     = (Normal tt,
        mkWorld [Status 500;
                 Json {| body_message := Some "argument name is invalid"%string |}]
                ["r2"; "r3"]%string).
Proof.
  split; [ | vm_compute; reflexivity].
  verifies_with "POST"%string spacedCookies "r9-abc"%string "r9-abc"%string.
Qed.

(** The amended C6 with the signing key ["k"] and the default cookie name,
    which the check accepts. *)
Lemma csrf_verified_rotation_witness :
  Verifies signedArgs (postRequest (Some signedCookies)) "abc"
  /\ serialize_error (tokenKey signedArgs) "r1-abc.k" (cookieOptions signedArgs) = None
  /\ calls_since world0 (rotate signedArgs "abc" world0)
     = [SetHeader "Set-Cookie" (Single "XSRF-TOKEN=r1-abc.k; Path=/"%string)]
  /\ Strict.csrf okHandler signedArgs (postRequest (Some signedCookies)) world0
     = try_catch (okHandler (postRequest (Some signedCookies))) csrf_catch
         (rotate signedArgs "abc" world0).
Proof.
  assert (Hv : Verifies signedArgs (postRequest (Some signedCookies)) "abc").
  { verifies_with "POST"%string signedCookies "r9-abc.k"%string "r9-abc"%string. }
  assert (Hok : serialize_error (tokenKey signedArgs) "r1-abc.k"
                  (cookieOptions signedArgs) = None) by reflexivity.
  destruct (proj1 (csrf_verified_rotation cookie_double check_double
                     signature_double tokens_double okHandler signedArgs
                     (postRequest (Some signedCookies)) "abc" world0 Hv) Hok)
    as (Hcalls & Hrun & _).
  exact (conj Hv (conj Hok (conj Hcalls Hrun))).
Defined.

(** C7, as stated, fails: with the token cookie named [XSRF TOKEN] the
    second call of [cookie.serialize] throws; [setup] throws its
    [TypeError], no directive is written and the handler is not called. *)
Lemma setup_refused_name_writes_nothing :
  Strict.setup okHandler spacedSetupArgs (ApiArgs getRequest) world0
  = (Throw (TypeError "argument name is invalid"), mkWorld [] ["r3"%string]).
Proof. vm_compute; reflexivity. Qed.

(** The amended C7 on a first visit, default options. *)
Lemma setup_two_cookies_or_type_error_witness :
  serialize_error "csrfSecret" "r1" (cookieDefaultOptions None) = None
  /\ serialize_error "XSRF-TOKEN" "r2-r1" (cookieDefaultOptions None) = None
  /\ Strict.setup okHandler defaultSetupArgs (ApiArgs getRequest) world0
     = okHandler getRequest
         (mkWorld
            [SetHeader "Set-Cookie"
               (Multi ["csrfSecret=r1; Path=/"%string;
                       "XSRF-TOKEN=r2-r1; Path=/"%string])]
            ["r3"%string]).
Proof.
  destruct (setup_two_cookies_or_type_error okHandler defaultSetupArgs
              (ApiArgs getRequest) world0)
    as (s & t & e1 & e2 & Hsec & Hcreate & Hok & _).
  injection Hsec as <- <-. injection Hcreate as <- <-.
  exact (conj eq_refl (conj eq_refl (Hok eq_refl eq_refl))).
Defined.

(** X2 on the verified [POST] under the refused name: the fourth case. *)
Example csrf_run_cases_refused :
  forall handler : NextApiHandler Tape,
    Strict.csrf handler spacedArgs (postRequest (Some spacedCookies)) world0
    = (Normal tt,
       mkWorld [Status 500;
                Json {| body_message := Some "argument name is invalid"%string |}]
               ["r2"; "r3"]%string).
Proof.
  intros handler.
  rewrite (strict_csrf_refused handler spacedArgs (postRequest (Some spacedCookies))
             "abc" (TypeError "argument name is invalid") world0);
    [reflexivity | | reflexivity].
  verifies_with "POST"%string spacedCookies "r9-abc"%string "r9-abc"%string.
Qed.

(** X6 on a [GET] without cookies. *)
Lemma csrf_without_exempt_methods_witness :
  ignoredMethods noExemptArgs = []
  /\ (forall s, ~ Verifies noExemptArgs getRequest s)
  /\ Strict.csrf okHandler noExemptArgs getRequest world0
     = (Normal tt,
        mkWorld [Status 403; Json {| body_message := Some "Invalid CSRF token"%string |}]
                (env world0)).
Proof.
  assert (Hnot : forall s, ~ Verifies noExemptArgs getRequest s).
  { intros s [m c token working _ _ Hc _ _ _ _ _ _ _]. discriminate Hc. }
  exact (conj eq_refl (conj Hnot
           (csrf_without_exempt_methods okHandler noExemptArgs getRequest world0
              eq_refl Hnot))).
Defined.


(** X10 on the header [csrfsecret=abc]. *)
Lemma setup_keeps_csrfsecret_cookie_witness :
  parse "csrfsecret=abc" !! "csrfsecret"%string = Some "abc"%string
  /\ Strict.setup okHandler defaultSetupArgs
       (ApiArgs (request (Some "GET"%string) (Some "csrfsecret=abc"%string))) world0
     = okHandler (request (Some "GET"%string) (Some "csrfsecret=abc"%string))
         (mkWorld
            [SetHeader "Set-Cookie"
               (Multi ["csrfSecret=abc; Path=/"%string;
                       "XSRF-TOKEN=r1-abc; Path=/"%string])]
            ["r2"; "r3"]%string).
Proof.
  assert (Hlow : parse "csrfsecret=abc" !! "csrfsecret"%string = Some "abc"%string)
    by (vm_compute; reflexivity).
  exact (conj Hlow
           (setup_keeps_csrfsecret_cookie okHandler defaultSetupArgs
              (ApiArgs (request (Some "GET"%string) (Some "csrfsecret=abc"%string)))
              "csrfsecret=abc" "abc" world0 eq_refl Hlow eq_refl eq_refl eq_refl)).
Defined.

(** X11 on a [GET] with [csrfSecret=abc] in the API shape and a [POST]
    without cookies in the context shape. *)
Lemma setup_reads_csrfsecret_cookie_only_witness :
  Strict.setup (fun _ => okHandler getRequest) defaultSetupArgs
    (ApiArgs (request (Some "GET"%string) (Some "csrfSecret=abc"%string))) world0
  = Strict.setup (fun _ => okHandler getRequest) defaultSetupArgs
      (ContextArgs {| ctx_req := postRequest None |}) world0.
Proof.
  apply (setup_reads_csrfsecret_cookie_only defaultSetupArgs
           (ApiArgs (request (Some "GET"%string) (Some "csrfSecret=abc"%string)))
           (ContextArgs {| ctx_req := postRequest None |})
           (okHandler getRequest) world0).
  vm_compute; reflexivity.
Defined.

(** X12 on the handler that throws [new Error("boom")], first visit. *)
Lemma setup_lets_handler_error_through_witness :
  calls_since world0
    (after_setup defaultSetupArgs "r1" "r2-r1" world0 ["r3"%string])
  = [SetHeader "Set-Cookie"
       (Multi ["csrfSecret=r1; Path=/"%string; "XSRF-TOKEN=r2-r1; Path=/"%string])]
  /\ Strict.setup failingHandler defaultSetupArgs (ApiArgs getRequest) world0
     = (Throw (Error "boom"),
        after_setup defaultSetupArgs "r1" "r2-r1" world0 ["r3"%string]).
Proof.
  assert (Hsec : setup_secret (setup_req (ApiArgs getRequest)) world0
                 = (Normal "r1"%string, mkWorld (res world0) ["r2"; "r3"]%string))
    by reflexivity.
  assert (Hcreate : create "r1" ["r2"; "r3"]%string
                    = ("r2-r1"%string, ["r3"%string])) by reflexivity.
  exact (setup_lets_handler_error_through failingHandler defaultSetupArgs
           (ApiArgs getRequest) world0 "r1" "r2-r1" ["r2"; "r3"]%string
           ["r3"%string] (Error "boom") _ Hsec Hcreate eq_refl eq_refl eq_refl).
Defined.
